(** * MIL-STD-704 power quality compliance checker: the rule evaluation of
    [script.js], embedded in Rocq.

    Numbers.  A JavaScript number is an IEEE double.  [parseNumber] lets only
    finite numbers through, every finite double is a rational, and [<=], [>=]
    and [toFixed] are defined by ECMAScript on that exact value, so a measured
    value and a profile limit are modelled as a [Q].  Comparisons use
    [Qle_bool]; no arithmetic is performed by the checker itself.

    Objects.  [busProfiles[busKey]] is a property lookup on an object literal:
    it sees the two profiles, the properties inherited from
    [Object.prototype], and yields [undefined] otherwise.  Reading a property
    of [undefined], destructuring [undefined] or [null], and calling a method
    of [undefined] throw a [TypeError]; the model keeps those throws.

    Page.  What the handler reads (the select, the seven inputs) and what it
    writes (overall status, summary block, checklist) is an explicit state. *)

From Stdlib Require Import QArith Qround Qabs ZArith String Ascii List Lia Lqa Bool.
From Stdlib Require Import DecimalString Decimal.
Import ListNotations.

Open Scope string_scope.

(** ** JavaScript values *)

(** The result of [Number(text)]. *)
Inductive JsNumber : Type :=
| JNaN
| JInfinity (negative : bool)
| JFinite (q : Q).

(** [Number.isFinite(num) ? num : null] *)
Definition finiteOrNull (num : JsNumber) : option Q :=
  match num with
  | JFinite q => Some q
  | _ => None
  end.

Inductive JsError : Type :=
| TypeError.

(** A computation either completes with a value or throws. *)
Inductive Outcome (A : Type) : Type :=
| Ok (a : A)
| Throw (e : JsError).

Arguments Ok {A} a.
Arguments Throw {A} e.

Definition bindO {A B} (c : Outcome A) (k : A -> Outcome B) : Outcome B :=
  match c with
  | Ok a => k a
  | Throw e => Throw e
  end.

Notation "x <- c ;; k" := (bindO c (fun x => k))
  (at level 61, c at next level, right associativity).
Notation "' pat <- c ;; k" := (bindO c (fun x => match x with pat => k end))
  (at level 61, pat pattern, c at next level, right associativity).

(** ** Decimal digits *)

Definition isDigit (c : ascii) : bool :=
  let n := nat_of_ascii c in (48 <=? n)%nat && (n <=? 57)%nat.

Fixpoint allDigits (s : string) : bool :=
  match s with
  | EmptyString => true
  | String c s' => isDigit c && allDigits s'
  end.

(** The decimal representation of a non-negative integer, ["0"] for zero. *)
Definition digitsOf (n : Z) : string :=
  NilZero.string_of_uint (N.to_uint (Z.to_N n)).

Fixpoint zeros (k : nat) : string :=
  match k with
  | O => EmptyString
  | S k' => String "0" (zeros k')
  end.

Definition pow10 (f : nat) : Z := (10 ^ Z.of_nat f)%Z.

(** The integer [n] for which [n / 10^f - x] is closest to zero, the larger
    one when two are equally close. *)
Definition roundHalfUp (x : Q) (f : nat) : Z :=
  Qfloor (x * inject_Z (pow10 f) + (1 # 2)).

(** ** The data model *)

Record BusProfile : Type := {
  busLabel : string;                  (* label *)
  nominalVoltage : Q;
  steadyVoltageRange : Q * Q;         (* [min, max], V *)
  ripplePercentMax : Q;
  uvDipPercentMax : Q;
  uvDurationMaxMs : Q;
  ovSurgePercentMax : Q;
  ovDurationMaxMs : Q;
  hasFrequency : bool;
  frequencyRange : option (Q * Q)     (* [min, max] in Hz, or null *)
}.

(** Simplified reference data (illustrative, not authoritative). *)
Definition profile28vdc : BusProfile := {|
  busLabel := "28 VDC Main Bus (Illustrative)";
  nominalVoltage := 28;
  steadyVoltageRange := (22, 29);
  ripplePercentMax := 5;
  uvDipPercentMax := 20;
  uvDurationMaxMs := 50;
  ovSurgePercentMax := 20;
  ovDurationMaxMs := 50;
  hasFrequency := false;
  frequencyRange := None
|}.

Definition profile115vac400 : BusProfile := {|
  busLabel := "115 VAC, 400 Hz (Illustrative)";
  nominalVoltage := 115;
  steadyVoltageRange := (108, 118);
  ripplePercentMax := 5;
  uvDipPercentMax := 20;
  uvDurationMaxMs := 50;
  ovSurgePercentMax := 20;
  ovDurationMaxMs := 50;
  hasFrequency := true;
  frequencyRange := Some (395, 405)
|}.

(** The own properties of the object literal [busProfiles], in source order. *)
Definition busProfiles : list (string * BusProfile) :=
  [ ("28vdc", profile28vdc); ("115vac400", profile115vac400) ].

(** The property names an object literal inherits from [Object.prototype]. *)
Definition objectPrototypeProperties : list string :=
  [ "constructor"; "hasOwnProperty"; "isPrototypeOf"; "propertyIsEnumerable";
    "toLocaleString"; "toString"; "valueOf"; "__proto__";
    "__defineGetter__"; "__defineSetter__"; "__lookupGetter__";
    "__lookupSetter__" ].

(** What [busProfiles[busKey]] evaluates to.  An inherited property is a
    function or [Object.prototype] itself: an object with none of the
    properties of a profile. *)
Inductive JsRef : Type :=
| JUndefined
| JInherited
| JProfile (p : BusProfile).

Fixpoint ownProperty (entries : list (string * BusProfile)) (key : string)
  : option BusProfile :=
  match entries with
  | [] => None
  | (k, p) :: rest => if String.eqb k key then Some p else ownProperty rest key
  end.

(** [busProfiles[busKey]] *)
Definition getProfile (busKey : string) : JsRef :=
  match ownProperty busProfiles busKey with
  | Some p => JProfile p
  | None =>
      if existsb (String.eqb busKey) objectPrototypeProperties
      then JInherited
      else JUndefined
  end.

(** [profile.f]: throws on [undefined], is [undefined] (here [None]) on an
    object without the property. *)
Definition prop {A : Type} (profile : JsRef) (f : BusProfile -> A)
  : Outcome (option A) :=
  match profile with
  | JUndefined => Throw TypeError
  | JInherited => Ok None
  | JProfile p => Ok (Some (f p))
  end.

(** [const [a, b] = range]: [undefined] and [null] are not iterable. *)
Definition destructure (range : option (Q * Q)) : Outcome (Q * Q) :=
  match range with
  | Some ab => Ok ab
  | None => Throw TypeError
  end.

(** [null] and [undefined] behave alike where the checker uses a range. *)
Definition nullish {A : Type} (v : option (option A)) : option A :=
  match v with
  | Some a => a
  | None => None
  end.

(** Truthiness of [profile.hasFrequency]; [undefined] is falsy. *)
Definition truthy (v : option bool) : bool :=
  match v with
  | Some b => b
  | None => false
  end.

(** [x <= limit], [false] when [limit] is [undefined] (it converts to NaN). *)
Definition lessEq (x : Q) (limit : option Q) : bool :=
  match limit with
  | Some l => Qle_bool x l
  | None => false
  end.

Record Measurement : Type := {
  steadyVoltage : option Q;
  steadyFrequency : option Q;
  ripple : option Q;
  uvDipPercent : option Q;
  uvDipDuration : option Q;
  ovSurgePercent : option Q;
  ovSurgeDuration : option Q
}.

Record CheckResult : Type := {
  label : string;
  pass : bool;
  detail : string
}.

Record ComplianceReport : Type := {
  checks : list CheckResult;
  overallPass : bool
}.

(** ** The page *)

Record OverallStatus : Type := {
  statusClasses : list string;        (* overallStatus.classList *)
  statusLabel : string;               (* .overall-status__label *)
  statusPill : string                 (* .overall-status__pill *)
}.

Record SummaryBlock : Type := {
  summaryClasses : list string;       (* summaryBlock.classList *)
  summaryBusType : string;
  summaryNominal : string;
  summarySteadyVoltage : string;
  summaryFrequency : string;
  summaryRipple : string;
  summaryUv : string;
  summaryOv : string
}.

(** One [div.check-item] of the checklist. *)
Record CheckItem : Type := {
  itemLabel : string;                 (* .check-item__label *)
  itemDetail : string;                (* .check-item__detail *)
  itemPillClasses : list string;
  itemPillText : string
}.

Record Checklist : Type := {
  checklistClasses : list string;     (* checklist.classList *)
  checklistItems : list CheckItem     (* the children of the checklist *)
}.

Record Page : Type := {
  busTypeValue : string;              (* busTypeSelect.value *)
  inputValue : string -> option string;
      (* the value of the input with that id; None when
         document.getElementById finds no element *)
  overallStatus : OverallStatus;
  summaryBlock : SummaryBlock;
  checklist : Checklist
}.

Definition setOverallStatus (o : OverallStatus) (page : Page) : Page :=
  {| busTypeValue := busTypeValue page; inputValue := inputValue page;
     overallStatus := o; summaryBlock := summaryBlock page;
     checklist := checklist page |}.

Definition setSummaryBlock (s : SummaryBlock) (page : Page) : Page :=
  {| busTypeValue := busTypeValue page; inputValue := inputValue page;
     overallStatus := overallStatus page; summaryBlock := s;
     checklist := checklist page |}.

Definition setChecklist (c : Checklist) (page : Page) : Page :=
  {| busTypeValue := busTypeValue page; inputValue := inputValue page;
     overallStatus := overallStatus page; summaryBlock := summaryBlock page;
     checklist := c |}.

(** [classList.remove(...names)] and [classList.add(name)] *)
Definition classRemove (names classes : list string) : list string :=
  filter (fun c => negb (existsb (String.eqb c) names)) classes.

Definition classAdd (name : string) (classes : list string) : list string :=
  if existsb (String.eqb name) classes then classes
  else (classes ++ [name])%list.

Section Checker.

(** Built-ins of the host that the script calls. *)
Variable trim : string -> string.             (* String.prototype.trim *)
Variable Number : string -> JsNumber.         (* Number(text) *)
Variable numberToString : Q -> string.        (* Number::toString *)

(** ** [Number.prototype.toFixed]

    ECMAScript: with [x] made non-negative and the sign kept apart, from
    10^21 on the result is [ToString(x)]; below, the digits of [x] rounded to
    [f] places are padded with zeros to [f + 1] places and split [f] places
    from the right. *)
Definition toFixed (x : Q) (f : nat) : string :=
  let s := if Qle_bool 0 x then "" else "-" in
  let x := Qabs x in
  if Qle_bool (inject_Z (10 ^ 21)) x then s ++ numberToString x
  else
    let n := roundHalfUp x f in
    let m := digitsOf n in
    if (f =? 0)%nat then s ++ m
    else
      let k := String.length m in
      let m := if (k <=? f)%nat then zeros (f + 1 - k) ++ m else m in
      let k := if (k <=? f)%nat then (f + 1)%nat else k in
      s ++ substring 0 (k - f) m ++ "." ++ substring (k - f) f m.

(** [limit.toFixed(f)]; a method call on [undefined] throws. *)
Definition toFixedOf (limit : option Q) (f : nat) : Outcome string :=
  match limit with
  | Some q => Ok (toFixed q f)
  | None => Throw TypeError
  end.

(** ** [parseNumber] *)
Definition parseNumber (page : Page) (id : string) : option Q :=
  match inputValue page id with
  | None => None
  | Some value =>
      let val := trim value in
      if String.eqb val "" then None
      else finiteOrNull (Number val)
  end.

(** ** The checks of [runComplianceCheck], lines 96 to 216

    Each step takes the array [checks] built so far and returns it with one
    more element pushed, or unchanged. *)

Definition push (cs : list CheckResult) (c : CheckResult) : list CheckResult :=
  (cs ++ [c])%list.

(** 1) Steady-state voltage *)
Definition stepSteadyVoltage (profile : JsRef) (m : Measurement)
    (cs : list CheckResult) : Outcome (list CheckResult) :=
  match steadyVoltage m with
  | Some v =>
      range <- prop profile steadyVoltageRange ;;
      '(vMin, vMax) <- destructure range ;;
      let pass := Qle_bool vMin v && Qle_bool v vMax in
      let detail := "Measured: " ++ toFixed v 2 ++ " V, Allowed: "
                    ++ toFixed vMin 1 ++ "–" ++ toFixed vMax 1 ++ " V" in
      Ok (push cs {| label := "Steady-State Voltage";
                     pass := pass; detail := detail |})
  | None =>
      Ok (push cs {| label := "Steady-State Voltage"; pass := false;
                     detail := "No measured voltage provided." |})
  end.

(** 2) Frequency (AC only) *)
Definition stepFrequency (profile : JsRef) (m : Measurement)
    (cs : list CheckResult) : Outcome (list CheckResult) :=
  ac <- prop profile hasFrequency ;;
  if truthy ac then
    match steadyFrequency m with
    | Some fr =>
        range <- prop profile frequencyRange ;;
        '(fMin, fMax) <- destructure (nullish range) ;;
        let pass := Qle_bool fMin fr && Qle_bool fr fMax in
        let detail := "Measured: " ++ toFixed fr 2 ++ " Hz, Allowed: "
                      ++ toFixed fMin 1 ++ "–" ++ toFixed fMax 1 ++ " Hz" in
        Ok (push cs {| label := "Steady-State Frequency";
                       pass := pass; detail := detail |})
    | None =>
        Ok (push cs {| label := "Steady-State Frequency"; pass := false;
                       detail := "No measured frequency provided for AC bus." |})
    end
  else Ok cs.

(** [profile.hasFrequency ? "AC Distortion / THD" : "DC Ripple Voltage"] *)
Definition rippleLabel (profile : JsRef) : Outcome string :=
  ac <- prop profile hasFrequency ;;
  Ok (if truthy ac then "AC Distortion / THD" else "DC Ripple Voltage").

(** 3) Ripple / Distortion *)
Definition stepRipple (profile : JsRef) (m : Measurement)
    (cs : list CheckResult) : Outcome (list CheckResult) :=
  match ripple m with
  | Some r =>
      maxRipple <- prop profile ripplePercentMax ;;
      let pass := lessEq r maxRipple in
      allowed <- toFixedOf maxRipple 1 ;;
      let detail := "Measured: " ++ toFixed r 2 ++ " %, Allowed: ≤ "
                    ++ allowed ++ " %" in
      lbl <- rippleLabel profile ;;
      Ok (push cs {| label := lbl; pass := pass; detail := detail |})
  | None =>
      lbl <- rippleLabel profile ;;
      Ok (push cs {| label := lbl; pass := false;
                     detail := "No ripple / distortion value provided." |})
  end.

(** The body shared, up to names and texts, by steps 4 and 5. *)
Definition transientCheck (profile : JsRef)
    (percentMax durationMax : BusProfile -> Q)
    (percent duration : option Q) (name missing : string)
  : Outcome CheckResult :=
  match percent, duration with
  | Some pc, Some du =>
      pcMax <- prop profile percentMax ;;
      let passPercent := lessEq pc pcMax in
      duMax <- prop profile durationMax ;;
      let passDuration := lessEq du duMax in
      let pass := passPercent && passDuration in
      pcAllowed <- toFixedOf pcMax 1 ;;
      duAllowed <- toFixedOf duMax 0 ;;
      let detail := "Measured: " ++ toFixed pc 1 ++ " % for " ++ toFixed du 0
                    ++ " ms, Allowed: ≤ " ++ pcAllowed ++ " % for ≤ "
                    ++ duAllowed ++ " ms" in
      Ok {| label := name; pass := pass; detail := detail |}
  | _, _ =>
      Ok {| label := name; pass := false; detail := missing |}
  end.

(** 4) Undervoltage dip *)
Definition stepUndervoltage (profile : JsRef) (m : Measurement)
    (cs : list CheckResult) : Outcome (list CheckResult) :=
  c <- transientCheck profile uvDipPercentMax uvDurationMaxMs
         (uvDipPercent m) (uvDipDuration m) "Transient Undervoltage"
         "Undervoltage dip percent and/or duration not provided." ;;
  Ok (push cs c).

(** 5) Overvoltage surge *)
Definition stepOvervoltage (profile : JsRef) (m : Measurement)
    (cs : list CheckResult) : Outcome (list CheckResult) :=
  c <- transientCheck profile ovSurgePercentMax ovDurationMaxMs
         (ovSurgePercent m) (ovSurgeDuration m) "Transient Overvoltage"
         "Overvoltage surge percent and/or duration not provided." ;;
  Ok (push cs c).

(** [checks.every((c) => c.pass)] *)
Definition every (cs : list CheckResult) : bool := forallb pass cs.

(** The compliance evaluator: the array of checks and the overall flag. *)
Definition evaluate (profile : JsRef) (m : Measurement)
  : Outcome ComplianceReport :=
  cs <- stepSteadyVoltage profile m [] ;;
  cs <- stepFrequency profile m cs ;;
  cs <- stepRipple profile m cs ;;
  cs <- stepUndervoltage profile m cs ;;
  cs <- stepOvervoltage profile m cs ;;
  Ok {| checks := cs; overallPass := every cs |}.

(** ** Rendering *)

Definition renderOverallStatus (overallPass : bool) (page : Page) : Page :=
  let classes :=
    classRemove [ "overall-status--idle"; "overall-status--pass";
                  "overall-status--fail" ]
                (statusClasses (overallStatus page)) in
  if overallPass then
    setOverallStatus
      {| statusClasses := classAdd "overall-status--pass" classes;
         statusLabel :=
           "Result: All checked parameters are within illustrative limits.";
         statusPill := "PASS (Demo)" |} page
  else
    setOverallStatus
      {| statusClasses := classAdd "overall-status--fail" classes;
         statusLabel :=
           "Result: One or more parameters exceed illustrative limits.";
         statusPill := "NOT COMPLIANT (Demo)" |} page.

(** [textContent = v]: [undefined] is written as the empty string. *)
Definition textOf (v : option string) : string :=
  match v with
  | Some s => s
  | None => ""
  end.

(** A number inside a template literal; [undefined] prints as its name. *)
Definition interpolate (v : option Q) : string :=
  match v with
  | Some q => numberToString q
  | None => "undefined"
  end.

Definition renderSummary (profile : JsRef) (values : Measurement)
    (page : Page) : Outcome unit * Page :=
  let old := summaryBlock page in
  let classes := classRemove [ "summary-block--hidden" ] (summaryClasses old) in
  let shown :=
    setSummaryBlock
      {| summaryClasses := classes;
         summaryBusType := summaryBusType old;
         summaryNominal := summaryNominal old;
         summarySteadyVoltage := summarySteadyVoltage old;
         summaryFrequency := summaryFrequency old;
         summaryRipple := summaryRipple old;
         summaryUv := summaryUv old;
         summaryOv := summaryOv old |} page in
  match (lbl <- prop profile busLabel ;;
         nominal <- prop profile nominalVoltage ;;
         ac <- prop profile hasFrequency ;;
         Ok (lbl, nominal, truthy ac)) with
  | Throw e => (Throw e, shown)
  | Ok (lbl, nominal, ac) =>
      let unit := if ac then "VAC" else "VDC" in
      (Ok tt,
       setSummaryBlock
         {| summaryClasses := classes;
            summaryBusType := textOf lbl;
            summaryNominal := interpolate nominal ++ " " ++ unit;
            summarySteadyVoltage :=
              match steadyVoltage values with
              | Some v => toFixed v 2 ++ " " ++ unit
              | None => "–"
              end;
            summaryFrequency :=
              match ac, steadyFrequency values with
              | true, Some fr => toFixed fr 2 ++ " Hz"
              | true, None => "Not provided"
              | false, _ => "N/A"
              end;
            summaryRipple :=
              match ripple values with
              | Some r => toFixed r 2 ++ " %"
              | None => "Not provided"
              end;
            summaryUv :=
              match uvDipPercent values, uvDipDuration values with
              | Some pc, Some du =>
                  toFixed pc 1 ++ " % for " ++ toFixed du 0 ++ " ms"
              | _, _ => "Not provided"
              end;
            summaryOv :=
              match ovSurgePercent values, ovSurgeDuration values with
              | Some pc, Some du =>
                  toFixed pc 1 ++ " % for " ++ toFixed du 0 ++ " ms"
              | _, _ => "Not provided"
              end |} page)
  end.

Definition checkItem (check : CheckResult) : CheckItem :=
  {| itemLabel := label check;
     itemDetail := detail check;
     itemPillClasses :=
       classAdd (if pass check then "check-item__pill--pass"
                 else "check-item__pill--fail") [ "check-item__pill" ];
     itemPillText := if pass check then "Within limit" else "Out of limit" |}.

Definition renderChecklist (cs : list CheckResult) (page : Page) : Page :=
  setChecklist
    {| checklistClasses :=
         classRemove [ "checklist--empty" ] (checklistClasses (checklist page));
       checklistItems := map checkItem cs |} page.

(** The seven [parseNumber] calls of lines 88 to 94. *)
Definition readForm (page : Page) : Measurement :=
  {| steadyVoltage := parseNumber page "steadyVoltage";
     steadyFrequency := parseNumber page "steadyFrequency";
     ripple := parseNumber page "ripple";
     uvDipPercent := parseNumber page "uvDipPercent";
     uvDipDuration := parseNumber page "uvDipDuration";
     ovSurgePercent := parseNumber page "ovSurgePercent";
     ovSurgeDuration := parseNumber page "ovSurgeDuration" |}.

(** ** [runComplianceCheck], the submit handler

    The result pairs how the handler ends with the page it leaves: a throw
    does not undo what was written before it.  [event.preventDefault()]
    touches nothing of the page. *)
Definition runComplianceCheck (page : Page) : Outcome unit * Page :=
  let busKey := busTypeValue page in
  let profile := getProfile busKey in
  let values := readForm page in
  match evaluate profile values with
  | Throw e => (Throw e, page)
  | Ok report =>
      let page := renderOverallStatus (overallPass report) page in
      match renderSummary profile values page with
      | (Throw e, page) => (Throw e, page)
      | (Ok _, page) => (Ok tt, renderChecklist (checks report) page)
      end
  end.

End Checker.

Arguments toFixed numberToString x f : simpl never.

(** ** Reading the numbers back out of a detail string

    [decimalPlaces s] lists, for every maximal decimal numeral of [s] from
    left to right, how many digits follow its point (0 for an integer). *)

Inductive ScanState : Type :=
| Outside
| InInteger
| AfterPoint (places : nat).

Definition flush (st : ScanState) : list nat :=
  match st with
  | Outside => []
  | InInteger => [0%nat]
  | AfterPoint n => [n]
  end.

Fixpoint scan (st : ScanState) (s : string) : list nat :=
  match s with
  | EmptyString => flush st
  | String c s' =>
      if isDigit c then
        match st with
        | Outside | InInteger => scan InInteger s'
        | AfterPoint n => scan (AfterPoint (S n)) s'
        end
      else
        match st with
        | InInteger =>
            if Ascii.eqb c "." then scan (AfterPoint 0) s'
            else (0%nat :: scan Outside s')%list
        | _ => (flush st ++ scan Outside s')%list
        end
  end.

Definition decimalPlaces (s : string) : list nat := scan Outside s.

(** A text that cannot continue a numeral: it is empty or starts with
    neither a digit nor a point. *)
Definition endsNumeral (rest : string) : bool :=
  match rest with
  | EmptyString => true
  | String c _ => negb (isDigit c) && negb (Ascii.eqb c ".")
  end.

(** The kind of a check, read off its label. *)
Inductive CheckKind : Type :=
| SteadyVoltageCheck
| FrequencyCheck
| RippleCheck
| TransientCheck.

Definition kindOf (lbl : string) : option CheckKind :=
  if String.eqb lbl "Steady-State Voltage" then Some SteadyVoltageCheck
  else if String.eqb lbl "Steady-State Frequency" then Some FrequencyCheck
  else if String.eqb lbl "AC Distortion / THD" then Some RippleCheck
  else if String.eqb lbl "DC Ripple Voltage" then Some RippleCheck
  else if String.eqb lbl "Transient Undervoltage" then Some TransientCheck
  else if String.eqb lbl "Transient Overvoltage" then Some TransientCheck
  else None.

(** The precision the specification states: voltages and frequencies with 2
    decimal places, percentages with 1, durations with 0; a detail names the
    measured value(s) first and the allowed range or threshold after. *)
Definition statedPlaces (k : CheckKind) : list nat :=
  match k with
  | SteadyVoltageCheck => [2; 2; 2]
  | FrequencyCheck => [2; 2; 2]
  | RippleCheck => [1; 1]
  | TransientCheck => [1; 0; 1; 0]
  end%nat.

(** The precision the script writes when the measurement is provided. *)
Definition writtenPlaces (k : CheckKind) : list nat :=
  match k with
  | SteadyVoltageCheck => [2; 1; 1]
  | FrequencyCheck => [2; 1; 1]
  | RippleCheck => [2; 1]
  | TransientCheck => [1; 0; 1; 0]
  end%nat.

Definition detailHas (places : CheckKind -> list nat) (c : CheckResult) : bool :=
  match kindOf (label c) with
  | Some k =>
      if list_eq_dec Nat.eq_dec (decimalPlaces (detail c)) (places k)
      then true else false
  | None => false
  end.

(** ** Well-formed profiles and bounded numbers *)

(** A profile that claims a frequency has a frequency range. *)
Definition frequencyConsistent (p : BusProfile) : Prop :=
  hasFrequency p = true -> exists range, frequencyRange p = Some range.

(** [toFixed] writes decimal notation below 10^21 only. *)
Definition fixedNotation (x : Q) : Prop := Qabs x < inject_Z (10 ^ 21).

Definition fixedNotationOpt (v : option Q) : Prop :=
  match v with
  | Some x => fixedNotation x
  | None => True
  end.

Definition fixedNotationRange (r : option (Q * Q)) : Prop :=
  match r with
  | Some (a, b) => fixedNotation a /\ fixedNotation b
  | None => True
  end.

Definition fixedNotationProfile (p : BusProfile) : Prop :=
  fixedNotationRange (Some (steadyVoltageRange p)) /\
  fixedNotationRange (frequencyRange p) /\
  fixedNotation (ripplePercentMax p) /\
  fixedNotation (uvDipPercentMax p) /\ fixedNotation (uvDurationMaxMs p) /\
  fixedNotation (ovSurgePercentMax p) /\ fixedNotation (ovDurationMaxMs p).

Definition fixedNotationMeasurement (m : Measurement) : Prop :=
  fixedNotationOpt (steadyVoltage m) /\ fixedNotationOpt (steadyFrequency m) /\
  fixedNotationOpt (ripple m) /\
  fixedNotationOpt (uvDipPercent m) /\ fixedNotationOpt (uvDipDuration m) /\
  fixedNotationOpt (ovSurgePercent m) /\ fixedNotationOpt (ovSurgeDuration m).

(** ** Concrete hosts and inputs for the examples *)

(** [Number::toString] on the whole numbers the examples reach. *)
Definition wholeNumberToString (q : Q) : string := digitsOf (Qfloor q).

Definition isSpace (c : ascii) : bool :=
  let n := nat_of_ascii c in
  (n =? 32)%nat || (n =? 9)%nat || (n =? 10)%nat || (n =? 13)%nat.

Fixpoint trimStart (s : string) : string :=
  match s with
  | EmptyString => EmptyString
  | String c r => if isSpace c then trimStart r else s
  end.

Fixpoint trimEnd (s : string) : string :=
  match s with
  | EmptyString => EmptyString
  | String c r =>
      let r' := trimEnd r in
      if isSpace c && (r' =? "") then EmptyString else String c r'
  end.

(** [trim] on texts whose white space is spaces, tabs and line ends. *)
Definition trimAscii (s : string) : string := trimEnd (trimStart s).

Fixpoint readDigits (s : string) (value : Z) (count : nat)
  : Z * nat * string :=
  match s with
  | EmptyString => (value, count, s)
  | String c r =>
      if isDigit c
      then readDigits r (10 * value + (Z.of_nat (nat_of_ascii c) - 48)) (S count)
      else (value, count, s)
  end.

(** [Number] on plain decimal literals: an optional sign, digits, an
    optional point and digits.  Every other text is taken as NaN here, so the
    examples use plain decimal literals only. *)
Definition decimalLiteral (text : string) : JsNumber :=
  let '(negative, body) :=
    match text with
    | String "-" r => (true, r)
    | String "+" r => (false, r)
    | _ => (false, text)
    end in
  let '(whole, nWhole, rest) := readDigits body 0 0 in
  let '(frac, nFrac, rest) :=
    match rest with
    | String "." r => readDigits r 0 0
    | _ => (0%Z, 0%nat, rest)
    end in
  if ((nWhole + nFrac =? 0)%nat || negb (rest =? ""))%bool then JNaN
  else
    let q := Qmake (whole * pow10 nFrac + frac) (Z.to_pos (pow10 nFrac)) in
    JFinite (if negative then - q else q).

Fixpoint valueOfInput (fields : list (string * string)) (id : string)
  : option string :=
  match fields with
  | [] => None
  | (k, v) :: rest => if String.eqb k id then Some v else valueOfInput rest id
  end.

(** The page as [resetForm] leaves it, with the select and the inputs set. *)
Definition idlePage (busKey : string) (fields : list (string * string)) : Page :=
  {| busTypeValue := busKey;
     inputValue := valueOfInput fields;
     overallStatus :=
       {| statusClasses := [ "overall-status--idle" ];
          statusLabel := "Awaiting input";
          statusPill := "No run yet" |};
     summaryBlock :=
       {| summaryClasses := [ "summary-block--hidden" ];
          summaryBusType := ""; summaryNominal := "";
          summarySteadyVoltage := ""; summaryFrequency := "";
          summaryRipple := ""; summaryUv := ""; summaryOv := "" |};
     checklist :=
       {| checklistClasses := [ "checklist--empty" ]; checklistItems := [] |} |}.

(** All seven inputs present and empty. *)
Definition blankFields : list (string * string) :=
  [ ("steadyVoltage", ""); ("steadyFrequency", ""); ("ripple", "");
    ("uvDipPercent", ""); ("uvDipDuration", "");
    ("ovSurgePercent", ""); ("ovSurgeDuration", "") ].

(** The inputs of the specification's example for the 28 V bus. *)
Definition fields28 : list (string * string) :=
  [ ("steadyVoltage", "27.8"); ("steadyFrequency", ""); ("ripple", "3");
    ("uvDipPercent", "10"); ("uvDipDuration", "20");
    ("ovSurgePercent", "10"); ("ovSurgeDuration", "20") ].

Definition noMeasurement : Measurement :=
  {| steadyVoltage := None; steadyFrequency := None; ripple := None;
     uvDipPercent := None; uvDipDuration := None;
     ovSurgePercent := None; ovSurgeDuration := None |}.

(** The example of the specification for the 28 V bus; the frequency field
    is not part of the example. *)
Definition example28 (frequency : option Q) : Measurement :=
  {| steadyVoltage := Some (278 # 10); steadyFrequency := frequency;
     ripple := Some 3;
     uvDipPercent := Some 10; uvDipDuration := Some 20;
     ovSurgePercent := Some 10; ovSurgeDuration := Some 20 |}.

(** The example of the specification for the 400 Hz bus. *)
Definition example115 : Measurement :=
  {| steadyVoltage := Some (1135 # 10); steadyFrequency := Some 402;
     ripple := Some 4;
     uvDipPercent := Some 15; uvDipDuration := Some 40;
     ovSurgePercent := Some 25; ovSurgeDuration := Some 40 |}.

(** ** The rest of the document and the other handlers

    What [updateBusMode] and [resetForm] touch beyond the page above: the
    class list of the body, the unit label and the hint of the voltage field,
    and whether the checklist holds the placeholder paragraph that
    [resetForm] writes into it. *)

Record Document : Type := {
  docPage : Page;
  bodyClasses : list string;          (* document.body.classList *)
  steadyVoltageUnit : string;         (* steadyVoltageUnitLabel.textContent *)
  steadyVoltageHintText : string;     (* steadyVoltageHint.textContent *)
  checklistPlaceholder : bool
      (* the content of the checklist is the placeholder paragraph *)
}.

Definition onPage (pg : Page) (doc : Document) : Document :=
  {| docPage := pg; bodyClasses := bodyClasses doc;
     steadyVoltageUnit := steadyVoltageUnit doc;
     steadyVoltageHintText := steadyVoltageHintText doc;
     checklistPlaceholder := checklistPlaceholder doc |}.

(** The select and the inputs take new values; nothing else changes. *)
Definition setForm (busKey : string) (values : string -> option string)
    (page : Page) : Page :=
  {| busTypeValue := busKey; inputValue := values;
     overallStatus := overallStatus page; summaryBlock := summaryBlock page;
     checklist := checklist page |}.

(** [updateBusMode] *)
Definition updateBusMode (doc : Document) : Outcome unit * Document :=
  let busKey := busTypeValue (docPage doc) in
  let profile := getProfile busKey in
  match prop profile hasFrequency with
  | Throw e => (Throw e, doc)
  | Ok ac =>
      let body :=
        if truthy ac then classAdd "ac-mode" (bodyClasses doc)
        else classRemove [ "ac-mode" ] (bodyClasses doc) in
      (Ok tt,
       if busKey =? "28vdc" then
         {| docPage := docPage doc; bodyClasses := body;
            steadyVoltageUnit := "VDC";
            steadyVoltageHintText :=
              "Example: 27.8 VDC on a nominal 28 V bus.";
            checklistPlaceholder := checklistPlaceholder doc |}
       else
         {| docPage := docPage doc; bodyClasses := body;
            steadyVoltageUnit := "VAC (RMS)";
            steadyVoltageHintText :=
              "Example: 113.5 VAC RMS on a 115 V, 400 Hz bus.";
            checklistPlaceholder := checklistPlaceholder doc |})
  end.

(** What [resetForm] writes after [updateBusMode] has returned. *)
Definition showIdle (doc : Document) : Document :=
  let pg := docPage doc in
  let pg :=
    setOverallStatus
      {| statusClasses :=
           classAdd "overall-status--idle"
             (classRemove [ "overall-status--pass"; "overall-status--fail" ]
                          (statusClasses (overallStatus pg)));
         statusLabel := "Awaiting input";
         statusPill := "No run yet" |} pg in
  let pg :=
    setChecklist
      {| checklistClasses :=
           classAdd "checklist--empty" (checklistClasses (checklist pg));
         checklistItems := [] |} pg in
  let old := summaryBlock pg in
  let pg :=
    setSummaryBlock
      {| summaryClasses := classAdd "summary-block--hidden" (summaryClasses old);
         summaryBusType := summaryBusType old;
         summaryNominal := summaryNominal old;
         summarySteadyVoltage := summarySteadyVoltage old;
         summaryFrequency := summaryFrequency old;
         summaryRipple := summaryRipple old;
         summaryUv := summaryUv old;
         summaryOv := summaryOv old |} pg in
  {| docPage := pg; bodyClasses := bodyClasses doc;
     steadyVoltageUnit := steadyVoltageUnit doc;
     steadyVoltageHintText := steadyVoltageHintText doc;
     checklistPlaceholder := true |}.

Section Handlers.

Variable trim : string -> string.
Variable Number : string -> JsNumber.
Variable numberToString : Q -> string.

(** [form.reset()]: the values of the select and of the inputs after the
    form has been reset, given their values before; the defaults are those of
    the markup. *)
Variable formReset :
  string * (string -> option string) -> string * (string -> option string).

(** [runComplianceCheck] on the document: [renderChecklist] empties the
    checklist before it appends the items, which removes the placeholder. *)
Definition submitForm (doc : Document) : Outcome unit * Document :=
  match runComplianceCheck trim Number numberToString (docPage doc) with
  | (Ok _, pg) =>
      (Ok tt,
       {| docPage := pg; bodyClasses := bodyClasses doc;
          steadyVoltageUnit := steadyVoltageUnit doc;
          steadyVoltageHintText := steadyVoltageHintText doc;
          checklistPlaceholder := false |})
  | (Throw e, pg) => (Throw e, onPage pg doc)
  end.

(** [resetForm] *)
Definition resetForm (doc : Document) : Outcome unit * Document :=
  let pg := docPage doc in
  let '(busKey, values) := formReset (busTypeValue pg, inputValue pg) in
  match updateBusMode (onPage (setForm busKey values pg) doc) with
  | (Throw e, doc) => (Throw e, doc)
  | (Ok _, doc) => (Ok tt, showIdle doc)
  end.

(** The event bindings of lines 354 to 357. *)
Inductive Handler : Type :=
| BusTypeChange
| FormSubmit
| ResetClick
| PrintClick.

Definition fire (h : Handler) (doc : Document) : Outcome unit * Document :=
  match h with
  | BusTypeChange => updateBusMode doc
  | FormSubmit => submitForm doc
  | ResetClick => resetForm doc
  | PrintClick => (Ok tt, doc)        (* window.print() *)
  end.

(** The documents a session can reach: a handler runs, or the user changes
    the selection or the text of the inputs. *)
Inductive reachable (start : Document) : Document -> Prop :=
| reach_start : reachable start start
| reach_fire (h : Handler) (doc : Document) :
    reachable start doc -> reachable start (snd (fire h doc))
| reach_edit (busKey : string) (values : string -> option string)
    (doc : Document) :
    reachable start doc ->
    reachable start (onPage (setForm busKey values (docPage doc)) doc).

End Handlers.

(** ** The two faces of the result area *)

Definition hasClass (name : string) (classes : list string) : Prop :=
  In name classes.

(** Nothing has been run, or the form has been reset. *)
Definition awaitingInput (doc : Document) : Prop :=
  let pg := docPage doc in
  hasClass "overall-status--idle" (statusClasses (overallStatus pg))
  /\ ~ hasClass "overall-status--pass" (statusClasses (overallStatus pg))
  /\ ~ hasClass "overall-status--fail" (statusClasses (overallStatus pg))
  /\ statusPill (overallStatus pg) = "No run yet"
  /\ hasClass "checklist--empty" (checklistClasses (checklist pg))
  /\ checklistItems (checklist pg) = []
  /\ checklistPlaceholder doc = true
  /\ hasClass "summary-block--hidden" (summaryClasses (summaryBlock pg)).

(** A report is shown: one verdict, the items it is the conjunction of, and
    the summary. *)
Definition showingReport (doc : Document) : Prop :=
  let pg := docPage doc in
  ~ hasClass "overall-status--idle" (statusClasses (overallStatus pg))
  /\ ((hasClass "overall-status--pass" (statusClasses (overallStatus pg))
       /\ ~ hasClass "overall-status--fail" (statusClasses (overallStatus pg))
       /\ statusPill (overallStatus pg) = "PASS (Demo)"
       /\ (forall it, In it (checklistItems (checklist pg)) ->
                      itemPillText it = "Within limit"))
      \/ (hasClass "overall-status--fail" (statusClasses (overallStatus pg))
          /\ ~ hasClass "overall-status--pass" (statusClasses (overallStatus pg))
          /\ statusPill (overallStatus pg) = "NOT COMPLIANT (Demo)"
          /\ (exists it, In it (checklistItems (checklist pg))
                         /\ itemPillText it = "Out of limit")))
  /\ ~ hasClass "checklist--empty" (checklistClasses (checklist pg))
  /\ checklistPlaceholder doc = false
  /\ ~ hasClass "summary-block--hidden" (summaryClasses (summaryBlock pg)).

Definition coherent (doc : Document) : Prop :=
  awaitingInput doc \/ showingReport doc.

(** The measurement set with another frequency. *)
Definition withFrequency (frequency : option Q) (m : Measurement) : Measurement :=
  {| steadyVoltage := steadyVoltage m; steadyFrequency := frequency;
     ripple := ripple m;
     uvDipPercent := uvDipPercent m; uvDipDuration := uvDipDuration m;
     ovSurgePercent := ovSurgePercent m; ovSurgeDuration := ovSurgeDuration m |}.

(** The document around [idlePage], as the markup would have it before any
    handler ran. *)
Definition idleDocument (busKey : string) (fields : list (string * string))
  : Document :=
  {| docPage := idlePage busKey fields; bodyClasses := [];
     steadyVoltageUnit := "VDC";
     steadyVoltageHintText := "Example: 27.8 VDC on a nominal 28 V bus.";
     checklistPlaceholder := true |}.

(** A form whose defaults are the 28 V bus and seven empty inputs. *)
Definition resetToBlank28 (form : string * (string -> option string))
  : string * (string -> option string) :=
  ("28vdc", valueOfInput blankFields).

(** Whether a measurement is there. *)
Definition given (v : option Q) : bool :=
  match v with
  | Some _ => true
  | None => false
  end.

(** Whether evaluating [m] reads a limit of the profile: the voltage range,
    the ripple maximum, or the maxima of a transient both of whose values are
    provided. *)
Definition readsLimit (m : Measurement) : bool :=
  given (steadyVoltage m) || given (ripple m)
  || (given (uvDipPercent m) && given (uvDipDuration m))
  || (given (ovSurgePercent m) && given (ovSurgeDuration m)).

(** * Properties *)

Section Properties.

Set Default Proof Using "Type".

Variable trim : string -> string.
Variable Number : string -> JsNumber.
Variable numberToString : Q -> string.

(** ** The anatomy of a report *)

Lemma every_spec (cs : list CheckResult) :
  every cs = true <-> (forall c, In c cs -> pass c = true).
Proof. unfold every. apply forallb_forall. Qed.

Ltac solve_fact :=
  intros;
  repeat match goal with
         | H : _ \/ _ |- _ => destruct H
         | H : Some _ = Some _ |- _ => inversion H; subst; clear H
         end;
  first [discriminate | reflexivity].

Ltac step_ok s cs :=
  destruct s as [cs|]; cbn [bindO]; [|discriminate].

(** Whatever the profile object is, a report that is produced carries the
    conjunction of its own checks. *)
Lemma evaluate_overall (profile : JsRef) (m : Measurement)
    (report : ComplianceReport) :
  evaluate numberToString profile m = Ok report ->
  overallPass report = every (checks report).
Proof.
  unfold evaluate.
  step_ok (stepSteadyVoltage numberToString profile m []) c1.
  step_ok (stepFrequency numberToString profile m c1) c2.
  step_ok (stepRipple numberToString profile m c2) c3.
  step_ok (stepUndervoltage numberToString profile m c3) c4.
  step_ok (stepOvervoltage numberToString profile m c4) c5.
  intros E. injection E as <-. reflexivity.
Qed.

(** On a profile whose frequency range is there when it is needed no step
    throws, and the report is the voltage check, the frequency check on an AC
    bus, and the ripple, undervoltage and overvoltage checks, each with the
    label and the flag given here. *)
Lemma evaluate_profile (p : BusProfile) (m : Measurement) :
  frequencyConsistent p ->
  exists cv cf cr cu co : CheckResult,
    evaluate numberToString (JProfile p) m =
      Ok {| checks := cv :: (if hasFrequency p then [cf] else []) ++ [cr; cu; co];
            overallPass :=
              every (cv :: (if hasFrequency p then [cf] else []) ++ [cr; cu; co]) |}
    /\ (label cv = "Steady-State Voltage" /\
        pass cv = match steadyVoltage m with
                  | Some v => Qle_bool (fst (steadyVoltageRange p)) v
                              && Qle_bool v (snd (steadyVoltageRange p))
                  | None => false
                  end /\
        (steadyVoltage m = None -> detail cv = "No measured voltage provided.") /\
        (forall v, steadyVoltage m = Some v ->
         detail cv = "Measured: " ++ toFixed numberToString v 2
                     ++ " V, Allowed: "
                     ++ toFixed numberToString (fst (steadyVoltageRange p)) 1
                     ++ "–"
                     ++ toFixed numberToString (snd (steadyVoltageRange p)) 1
                     ++ " V"))
    /\ (hasFrequency p = true ->
        label cf = "Steady-State Frequency" /\
        pass cf = match steadyFrequency m, frequencyRange p with
                  | Some fr, Some (fMin, fMax) =>
                      Qle_bool fMin fr && Qle_bool fr fMax
                  | _, _ => false
                  end /\
        (steadyFrequency m = None ->
         detail cf = "No measured frequency provided for AC bus.") /\
        (forall fr fMin fMax,
         steadyFrequency m = Some fr -> frequencyRange p = Some (fMin, fMax) ->
         detail cf = "Measured: " ++ toFixed numberToString fr 2
                     ++ " Hz, Allowed: " ++ toFixed numberToString fMin 1
                     ++ "–" ++ toFixed numberToString fMax 1 ++ " Hz"))
    /\ (label cr = (if hasFrequency p then "AC Distortion / THD"
                    else "DC Ripple Voltage") /\
        pass cr = match ripple m with
                  | Some r => Qle_bool r (ripplePercentMax p)
                  | None => false
                  end /\
        (ripple m = None -> detail cr = "No ripple / distortion value provided.") /\
        (forall r, ripple m = Some r ->
         detail cr = "Measured: " ++ toFixed numberToString r 2
                     ++ " %, Allowed: ≤ "
                     ++ toFixed numberToString (ripplePercentMax p) 1 ++ " %"))
    /\ (label cu = "Transient Undervoltage" /\
        pass cu = match uvDipPercent m, uvDipDuration m with
                  | Some pc, Some du =>
                      Qle_bool pc (uvDipPercentMax p)
                      && Qle_bool du (uvDurationMaxMs p)
                  | _, _ => false
                  end /\
        (uvDipPercent m = None \/ uvDipDuration m = None ->
         detail cu = "Undervoltage dip percent and/or duration not provided.") /\
        (forall pc du, uvDipPercent m = Some pc -> uvDipDuration m = Some du ->
         detail cu = "Measured: " ++ toFixed numberToString pc 1 ++ " % for "
                     ++ toFixed numberToString du 0 ++ " ms, Allowed: ≤ "
                     ++ toFixed numberToString (uvDipPercentMax p) 1
                     ++ " % for ≤ "
                     ++ toFixed numberToString (uvDurationMaxMs p) 0 ++ " ms"))
    /\ (label co = "Transient Overvoltage" /\
        pass co = match ovSurgePercent m, ovSurgeDuration m with
                  | Some pc, Some du =>
                      Qle_bool pc (ovSurgePercentMax p)
                      && Qle_bool du (ovDurationMaxMs p)
                  | _, _ => false
                  end /\
        (ovSurgePercent m = None \/ ovSurgeDuration m = None ->
         detail co = "Overvoltage surge percent and/or duration not provided.") /\
        (forall pc du, ovSurgePercent m = Some pc -> ovSurgeDuration m = Some du ->
         detail co = "Measured: " ++ toFixed numberToString pc 1 ++ " % for "
                     ++ toFixed numberToString du 0 ++ " ms, Allowed: ≤ "
                     ++ toFixed numberToString (ovSurgePercentMax p) 1
                     ++ " % for ≤ "
                     ++ toFixed numberToString (ovDurationMaxMs p) 0 ++ " ms")).
Proof.
  intros Hfreq.
  destruct p as [lbl nom [vMin vMax] rmax upc udu opc odu ac fr].
  destruct m as [v f r up ud op od].
  unfold frequencyConsistent in Hfreq. cbn in Hfreq.
  unfold evaluate, stepSteadyVoltage, stepFrequency, stepRipple,
    stepUndervoltage, stepOvervoltage, transientCheck, rippleLabel, push.
  cbn [steadyVoltage steadyFrequency ripple uvDipPercent uvDipDuration
       ovSurgePercent ovSurgeDuration prop bindO destructure nullish truthy
       lessEq toFixedOf steadyVoltageRange frequencyRange hasFrequency
       ripplePercentMax uvDipPercentMax uvDurationMaxMs ovSurgePercentMax
       ovDurationMaxMs fst snd].
  destruct ac.
  - destruct Hfreq as [[fMin fMax] ->]; [reflexivity|].
    destruct v, f, r, up, ud, op, od;
      cbn [bindO destructure nullish app];
      do 5 eexists; (split; [reflexivity|]); cbn [label pass detail];
      repeat split; solve_fact.
  - pose (cf0 := {| label := ""; pass := false; detail := "" |}).
    destruct v, r, up, ud, op, od;
      cbn [bindO destructure nullish app];
      eexists; exists cf0; do 3 eexists;
      (split; [reflexivity|]); cbn [label pass detail];
      repeat split; solve_fact.
Qed.

(** ** Overall verdict *)

(** C1.  For every profile object and every measurement set, the overall
    pass flag of a report the evaluator produces is true exactly when every
    check of that report has its pass flag true; and for every profile whose
    frequency range is there when its flag asks for it, a report is produced. *)
Theorem overall_pass_iff_every_check_passes (profile : JsRef) (m : Measurement) :
  (forall p, profile = JProfile p -> frequencyConsistent p ->
     exists report, evaluate numberToString profile m = Ok report)
  /\ (forall report, evaluate numberToString profile m = Ok report ->
       (overallPass report = true <->
        forall c, In c (checks report) -> pass c = true)).
Proof.
  split.
  - intros p -> Hp.
    destruct (evaluate_profile p m Hp) as (cv & cf & cr & cu & co & E & _).
    eexists. exact E.
  - intros report E.
    rewrite (evaluate_overall profile m report E).
    apply every_spec.
Qed.

(** ** The checks of a report and their order *)

(** C9.  On a profile with hasFrequency=true the report has exactly the five
    checks Steady-State Voltage, Steady-State Frequency, AC Distortion / THD,
    Transient Undervoltage, Transient Overvoltage, in that order; on a profile
    with hasFrequency=false exactly the four checks Steady-State Voltage,
    DC Ripple Voltage, Transient Undervoltage, Transient Overvoltage; the
    labels depend on the profile only, not on the measurements. *)
Theorem report_labels_fixed_by_profile (p : BusProfile) (m : Measurement) :
  frequencyConsistent p ->
  exists report,
    evaluate numberToString (JProfile p) m = Ok report
    /\ map label (checks report) =
         (if hasFrequency p
          then [ "Steady-State Voltage"; "Steady-State Frequency";
                 "AC Distortion / THD"; "Transient Undervoltage";
                 "Transient Overvoltage" ]
          else [ "Steady-State Voltage"; "DC Ripple Voltage";
                 "Transient Undervoltage"; "Transient Overvoltage" ])
    /\ length (checks report) = (if hasFrequency p then 5 else 4)%nat.
Proof.
  intros Hp.
  destruct (evaluate_profile p m Hp)
    as (cv & cf & cr & cu & co & E & (Lv & _) & Hf & (Lr & _) & (Lu & _) & (Lo & _)).
  eexists. split; [exact E|]. cbn [checks].
  destruct (hasFrequency p).
  - destruct (Hf eq_refl) as (Lf & _).
    cbn. rewrite Lv, Lf, Lr, Lu, Lo. split; reflexivity.
  - cbn. rewrite Lv, Lr, Lu, Lo. split; reflexivity.
Qed.

(** ** Steady-state voltage *)

Lemma within_spec (lo hi v : Q) :
  Qle_bool lo v && Qle_bool v hi = true <-> lo <= v /\ v <= hi.
Proof.
  rewrite andb_true_iff, !Qle_bool_iff. reflexivity.
Qed.

(** C3.  With a steady-state voltage v provided, the report's first check is
    the steady-state voltage check, and it passes exactly when
    min <= v <= max for the profile's steady-state range, both bounds
    included: v equal to min or to max passes (the range being a range,
    min <= max), and v = min - 0.01 or v = max + 0.01 fails. *)
Theorem steady_voltage_passes_iff_within_range
    (p : BusProfile) (m : Measurement) (v : Q) :
  frequencyConsistent p ->
  steadyVoltage m = Some v ->
  exists report c rest,
    evaluate numberToString (JProfile p) m = Ok report
    /\ checks report = c :: rest
    /\ label c = "Steady-State Voltage"
    /\ (forall c', In c' rest -> label c' <> "Steady-State Voltage")
    /\ (pass c = true <->
        fst (steadyVoltageRange p) <= v /\ v <= snd (steadyVoltageRange p))
    /\ (fst (steadyVoltageRange p) <= snd (steadyVoltageRange p) ->
        v == fst (steadyVoltageRange p) \/ v == snd (steadyVoltageRange p) ->
        pass c = true)
    /\ (v == fst (steadyVoltageRange p) - (1 # 100) \/
        v == snd (steadyVoltageRange p) + (1 # 100) ->
        pass c = false).
Proof.
  intros Hp Hv.
  destruct (evaluate_profile p m Hp)
    as (cv & cf & cr & cu & co & E & (Lv & Pv & _ & _) & Hf & (Lr & _) & (Lu & _) & (Lo & _)).
  rewrite Hv in Pv.
  assert (Hiff : pass cv = true <->
                 fst (steadyVoltageRange p) <= v /\ v <= snd (steadyVoltageRange p)).
  { rewrite Pv. apply within_spec. }
  eexists. exists cv. eexists.
  split; [exact E|]. split; [reflexivity|]. split; [exact Lv|].
  split; [|split; [exact Hiff|split]].
  - intros c' Hin.
    apply in_app_or in Hin. destruct Hin as [Hin|Hin].
    + destruct (hasFrequency p); [|contradiction].
      destruct Hin as [<-|[]]. destruct (Hf eq_refl) as (Lf & _).
      rewrite Lf. discriminate.
    + destruct Hin as [<-|[<-|[<-|[]]]].
      * rewrite Lr. destruct (hasFrequency p); discriminate.
      * rewrite Lu. discriminate.
      * rewrite Lo. discriminate.
  - intros Hrange [Heq|Heq]; apply Hiff; rewrite Heq; split;
      first [apply Qle_refl | exact Hrange].
  - intros Hout. apply not_true_is_false. intros Htrue.
    apply Hiff in Htrue. destruct Htrue as [Hlo Hhi].
    destruct Hout as [Heq|Heq]; rewrite Heq in *.
    + apply (Qlt_irrefl (fst (steadyVoltageRange p))).
      eapply Qle_lt_trans; [exact Hlo|].
      rewrite <- (Qplus_0_r (fst (steadyVoltageRange p))) at 2.
      unfold Qminus. apply Qplus_lt_r. reflexivity.
    + apply (Qlt_irrefl (snd (steadyVoltageRange p))).
      eapply Qlt_le_trans; [|exact Hhi].
      rewrite <- (Qplus_0_r (snd (steadyVoltageRange p))) at 1.
      apply Qplus_lt_r. reflexivity.
Qed.

(** ** Missing measurements *)

(** An element that is not there, a value that is empty once trimmed, and a
    text that [Number] does not turn into a finite number all read as null. *)
Lemma parseNumber_null (page : Page) (id : string) :
  match inputValue page id with
  | None => True
  | Some value =>
      trim value = "" \/ finiteOrNull (Number (trim value)) = None
  end ->
  parseNumber trim Number page id = None.
Proof.
  unfold parseNumber. destruct (inputValue page id) as [value|]; [|reflexivity].
  intros [E|E].
  - rewrite E. reflexivity.
  - rewrite E. destruct (trim value =? ""); reflexivity.
Qed.

Lemma in_report_checks (cv cf cr cu co : CheckResult) (ac : bool) :
  let cs := cv :: (if ac then [cf] else []) ++ [cr; cu; co] in
  In cv cs /\ (ac = true -> In cf cs) /\ In cr cs /\ In cu cs /\ In co cs.
Proof.
  destruct ac; cbn; intuition congruence.
Qed.

Lemma check_eta (c : CheckResult) (l d : string) (b : bool) :
  label c = l -> pass c = b -> detail c = d ->
  c = {| label := l; pass := b; detail := d |}.
Proof. destruct c; cbn; intros -> -> ->; reflexivity. Qed.

(** C4.  Empty or non-numeric input is read as an absent measurement; with
    whatever measurements absent, the evaluator does not throw and the report
    has all the checks of the profile; the check of an absent field is in the
    report with pass=false and a detail that says what is missing; only the
    frequency check is left out, on a profile with hasFrequency=false. *)
Theorem absent_measurement_fails_its_check (p : BusProfile) (m : Measurement) :
  frequencyConsistent p ->
  (forall page id,
     match inputValue page id with
     | None => True
     | Some value =>
         trim value = "" \/ finiteOrNull (Number (trim value)) = None
     end ->
     parseNumber trim Number page id = None)
  /\ exists report,
      evaluate numberToString (JProfile p) m = Ok report
      /\ length (checks report) = (if hasFrequency p then 5 else 4)%nat
      /\ (steadyVoltage m = None ->
          In {| label := "Steady-State Voltage"; pass := false;
                detail := "No measured voltage provided." |} (checks report))
      /\ (steadyFrequency m = None -> hasFrequency p = true ->
          In {| label := "Steady-State Frequency"; pass := false;
                detail := "No measured frequency provided for AC bus." |}
             (checks report))
      /\ (hasFrequency p = false ->
          forall c, In c (checks report) -> label c <> "Steady-State Frequency")
      /\ (ripple m = None ->
          In {| label := if hasFrequency p then "AC Distortion / THD"
                         else "DC Ripple Voltage";
                pass := false;
                detail := "No ripple / distortion value provided." |}
             (checks report))
      /\ (uvDipPercent m = None \/ uvDipDuration m = None ->
          In {| label := "Transient Undervoltage"; pass := false;
                detail := "Undervoltage dip percent and/or duration not provided." |}
             (checks report))
      /\ (ovSurgePercent m = None \/ ovSurgeDuration m = None ->
          In {| label := "Transient Overvoltage"; pass := false;
                detail := "Overvoltage surge percent and/or duration not provided." |}
             (checks report)).
Proof.
  intros Hp. split; [exact parseNumber_null|].
  destruct (evaluate_profile p m Hp)
    as (cv & cf & cr & cu & co & E & (Lv & Pv & Dv & _) & Hf & (Lr & Pr & Dr & _)
        & (Lu & Pu & Du & _) & (Lo & Po & Do & _)).
  destruct (in_report_checks cv cf cr cu co (hasFrequency p))
    as (Iv & If & Ir & Iu & Io).
  eexists. split; [exact E|]. cbn [checks].
  split; [destruct (hasFrequency p); reflexivity|].
  split; [|split; [|split; [|split; [|split]]]].
  - intros Hm. rewrite Hm in Pv.
    rewrite <- (check_eta cv _ _ _ Lv Pv (Dv Hm)). exact Iv.
  - intros Hm Hac. destruct (Hf Hac) as (Lf & Pf & Df & _). rewrite Hm in Pf.
    rewrite <- (check_eta cf _ _ _ Lf Pf (Df Hm)). exact (If Hac).
  - intros Hac c Hin. rewrite Hac in Hin. cbn in Hin.
    destruct Hin as [<-|[<-|[<-|[<-|[]]]]].
    + rewrite Lv. discriminate.
    + rewrite Lr, Hac. discriminate.
    + rewrite Lu. discriminate.
    + rewrite Lo. discriminate.
  - intros Hm. rewrite Hm in Pr.
    rewrite <- (check_eta cr _ _ _ Lr Pr (Dr Hm)). exact Ir.
  - intros Hm.
    assert (Pu' : pass cu = false).
    { rewrite Pu. destruct Hm as [-> | ->]; [reflexivity|].
      destruct (uvDipPercent m); reflexivity. }
    rewrite <- (check_eta cu _ _ _ Lu Pu' (Du Hm)). exact Iu.
  - intros Hm.
    assert (Po' : pass co = false).
    { rewrite Po. destruct Hm as [-> | ->]; [reflexivity|].
      destruct (ovSurgePercent m); reflexivity. }
    rewrite <- (check_eta co _ _ _ Lo Po' (Do Hm)). exact Io.
Qed.

(** ** Frequency *)

(** C5.  On a profile with hasFrequency=false no check of the report is the
    frequency check, whatever frequency was supplied.  On a profile with
    hasFrequency=true and frequency range [fMin, fMax] exactly one check of
    the report is the frequency check; it passes exactly when a frequency fr
    is provided with fMin <= fr <= fMax, so it fails when none is provided. *)
Theorem frequency_check_only_on_ac (p : BusProfile) (m : Measurement) :
  (hasFrequency p = false ->
   exists report,
     evaluate numberToString (JProfile p) m = Ok report
     /\ filter (fun c => label c =? "Steady-State Frequency") (checks report) = [])
  /\ (forall fMin fMax,
       hasFrequency p = true -> frequencyRange p = Some (fMin, fMax) ->
       exists report c,
         evaluate numberToString (JProfile p) m = Ok report
         /\ filter (fun c => label c =? "Steady-State Frequency") (checks report)
            = [c]
         /\ (pass c = true <->
             exists fr, steadyFrequency m = Some fr /\ fMin <= fr /\ fr <= fMax)
         /\ (steadyFrequency m = None -> pass c = false)).
Proof.
  split.
  - intros Hac.
    assert (Hp : frequencyConsistent p).
    { intros H. rewrite Hac in H. discriminate. }
    destruct (evaluate_profile p m Hp)
      as (cv & cf & cr & cu & co & E & (Lv & _) & _ & (Lr & _) & (Lu & _) & (Lo & _)).
    eexists. split; [exact E|]. cbn [checks]. rewrite Hac in *.
    cbn. rewrite Lv, Lr, Lu, Lo. reflexivity.
  - intros fMin fMax Hac Hrange.
    assert (Hp : frequencyConsistent p).
    { intros _. eexists. exact Hrange. }
    destruct (evaluate_profile p m Hp)
      as (cv & cf & cr & cu & co & E & (Lv & _) & Hf & (Lr & _) & (Lu & _) & (Lo & _)).
    destruct (Hf Hac) as (Lf & Pf & _ & _). rewrite Hrange in Pf.
    eexists. exists cf. split; [exact E|]. cbn [checks]. rewrite Hac in *.
    split; [cbn; rewrite Lv, Lf, Lr, Lu, Lo; reflexivity|]. split.
    + rewrite Pf. destruct (steadyFrequency m) as [fr|].
      * rewrite within_spec. split.
        -- intros H. exists fr. split; [reflexivity|exact H].
        -- intros (fr' & Efr & H). injection Efr as <-. exact H.
      * split; [discriminate|]. intros (fr' & Efr & _). discriminate.
    + intros Hm. rewrite Pf, Hm. reflexivity.
Qed.

(** ** Transients *)

Lemma transient_pass_spec (percent duration : option Q) (pcMax duMax : Q) :
  match percent, duration with
  | Some pc, Some du => Qle_bool pc pcMax && Qle_bool du duMax
  | _, _ => false
  end = true <->
  exists pc du, percent = Some pc /\ duration = Some du
                /\ pc <= pcMax /\ du <= duMax.
Proof.
  destruct percent as [pc|], duration as [du|].
  - rewrite andb_true_iff, !Qle_bool_iff. split.
    + intros [H1 H2]. exists pc, du. repeat split; assumption.
    + intros (pc' & du' & Epc & Edu & H).
      injection Epc as <-. injection Edu as <-. exact H.
  - split; [discriminate|]. intros (? & ? & _ & E & _). discriminate.
  - split; [discriminate|]. intros (? & ? & E & _). discriminate.
  - split; [discriminate|]. intros (? & ? & E & _). discriminate.
Qed.

(** C6.  The last two checks of the report are the transient undervoltage
    and the transient overvoltage check.  The undervoltage check passes
    exactly when a dip percent and a dip duration are both provided, the
    percent is <= uvDipPercentMax and the duration is <= uvDurationMaxMs; with
    either value missing it is in the report with pass=false.  The overvoltage
    check is the same with ovSurgePercentMax and ovDurationMaxMs. *)
Theorem transient_checks_need_both_values (p : BusProfile) (m : Measurement) :
  frequencyConsistent p ->
  exists report front cu co,
    evaluate numberToString (JProfile p) m = Ok report
    /\ checks report = (front ++ [cu; co])%list
    /\ label cu = "Transient Undervoltage"
    /\ label co = "Transient Overvoltage"
    /\ (pass cu = true <->
        exists pc du, uvDipPercent m = Some pc /\ uvDipDuration m = Some du
                      /\ pc <= uvDipPercentMax p /\ du <= uvDurationMaxMs p)
    /\ (uvDipPercent m = None \/ uvDipDuration m = None -> pass cu = false)
    /\ (pass co = true <->
        exists pc du, ovSurgePercent m = Some pc /\ ovSurgeDuration m = Some du
                      /\ pc <= ovSurgePercentMax p /\ du <= ovDurationMaxMs p)
    /\ (ovSurgePercent m = None \/ ovSurgeDuration m = None -> pass co = false).
Proof.
  intros Hp.
  destruct (evaluate_profile p m Hp)
    as (cv & cf & cr & cu & co & E & _ & _ & _ & (Lu & Pu & _ & _) & (Lo & Po & _ & _)).
  eexists. exists (cv :: (if hasFrequency p then [cf] else []) ++ [cr])%list, cu, co.
  split; [exact E|]. cbn [checks].
  split; [destruct (hasFrequency p); reflexivity|].
  split; [exact Lu|]. split; [exact Lo|].
  split; [rewrite Pu; apply transient_pass_spec|].
  split.
  { intros Hm. rewrite Pu. destruct Hm as [-> | ->]; [reflexivity|].
    destruct (uvDipPercent m); reflexivity. }
  split; [rewrite Po; apply transient_pass_spec|].
  intros Hm. rewrite Po. destruct Hm as [-> | ->]; [reflexivity|].
  destruct (ovSurgePercent m); reflexivity.
Qed.

(** C10.  The upper-bound checks have no lower bound: a provided ripple value
    at or below ripplePercentMax passes the ripple check, and provided
    transient values at or below their maxima pass the transient check,
    however small the values are; zero and negative values pass whenever the
    maxima are not negative, as ripple = -1 does on both registered profiles. *)
Theorem upper_bound_checks_have_no_lower_bound (p : BusProfile) (m : Measurement) :
  frequencyConsistent p ->
  exists report cr cu co,
    evaluate numberToString (JProfile p) m = Ok report
    /\ In cr (checks report) /\ In cu (checks report) /\ In co (checks report)
    /\ label cr = (if hasFrequency p then "AC Distortion / THD"
                   else "DC Ripple Voltage")
    /\ label cu = "Transient Undervoltage"
    /\ label co = "Transient Overvoltage"
    /\ (forall r, ripple m = Some r -> r <= ripplePercentMax p -> pass cr = true)
    /\ (forall pc du, uvDipPercent m = Some pc -> uvDipDuration m = Some du ->
         pc <= uvDipPercentMax p -> du <= uvDurationMaxMs p -> pass cu = true)
    /\ (forall pc du, ovSurgePercent m = Some pc -> ovSurgeDuration m = Some du ->
         pc <= ovSurgePercentMax p -> du <= ovDurationMaxMs p -> pass co = true)
    /\ (forall r, ripple m = Some r -> r <= 0 -> 0 <= ripplePercentMax p ->
         pass cr = true)
    /\ (In p (map snd busProfiles) -> ripple m = Some (- (1)) -> pass cr = true).
Proof.
  intros Hp.
  destruct (evaluate_profile p m Hp)
    as (cv & cf & cr & cu & co & E & _ & _ & (Lr & Pr & _ & _) & (Lu & Pu & _ & _)
        & (Lo & Po & _ & _)).
  destruct (in_report_checks cv cf cr cu co (hasFrequency p))
    as (_ & _ & Ir & Iu & Io).
  assert (Hr : forall r, ripple m = Some r -> r <= ripplePercentMax p ->
                         pass cr = true).
  { intros r Hm Hle. rewrite Pr, Hm. apply Qle_bool_iff. exact Hle. }
  eexists. exists cr, cu, co. split; [exact E|]. cbn [checks].
  repeat (split; [assumption|]).
  split; [|split; [|split]].
  - intros pc du Hpc Hdu H1 H2. rewrite Pu, Hpc, Hdu.
    apply andb_true_iff. split; apply Qle_bool_iff; assumption.
  - intros pc du Hpc Hdu H1 H2. rewrite Po, Hpc, Hdu.
    apply andb_true_iff. split; apply Qle_bool_iff; assumption.
  - intros r Hm H1 H2. apply (Hr r Hm). eapply Qle_trans; eassumption.
  - intros Hin Hm. apply (Hr _ Hm).
    cbn in Hin. destruct Hin as [<-|[<-|[]]]; cbn; discriminate.
Qed.

(** ** The rounding of [toFixed] *)

Lemma nearest_integer (y : Q) (k : Z) :
  let n := Qfloor (y + (1 # 2)) in
  Qabs (inject_Z n - y) <= Qabs (inject_Z k - y)
  /\ (Qabs (inject_Z n - y) == Qabs (inject_Z k - y) -> (k <= n)%Z).
Proof.
  intros n.
  pose proof (Qfloor_le (y + (1 # 2))) as Hlo.
  pose proof (Qlt_floor (y + (1 # 2))) as Hhi.
  fold n in Hlo, Hhi. rewrite inject_Z_plus in Hhi.
  change (inject_Z 1) with 1 in Hhi.
  destruct (Z_lt_le_dec n k) as [Hk|Hk].
  - assert (Hq : inject_Z n + 1 <= inject_Z k).
    { change 1 with (inject_Z 1). rewrite <- inject_Z_plus.
      rewrite <- Zle_Qle. lia. }
    split.
    + apply Qabs_case; intros; apply Qabs_case; intros; lra.
    + intros Heq. exfalso. revert Heq.
      apply Qabs_case; intros H1; apply Qabs_case; intros H2 H3; lra.
  - assert (Hq : inject_Z k <= inject_Z n) by (rewrite <- Zle_Qle; exact Hk).
    split; [|intros _; exact Hk].
    destruct (Z.eq_dec k n) as [->|Hne].
    + apply Qle_refl.
    + assert (Hq' : inject_Z k + 1 <= inject_Z n).
      { change 1 with (inject_Z 1). rewrite <- inject_Z_plus.
        rewrite <- Zle_Qle. lia. }
      apply Qabs_case; intros; apply Qabs_case; intros; lra.
Qed.

Lemma pow10_pos (f : nat) : 0 < inject_Z (pow10 f).
Proof.
  unfold pow10. change 0 with (inject_Z 0). rewrite <- Zlt_Qlt.
  apply Z.pow_pos_nonneg; lia.
Qed.

Lemma scaled_distance (a : Z) (x : Q) (f : nat) :
  Qabs (inject_Z a / inject_Z (pow10 f) - x)
  == Qabs (inject_Z a - x * inject_Z (pow10 f)) / inject_Z (pow10 f).
Proof.
  pose proof (pow10_pos f) as HP.
  assert (E : inject_Z a / inject_Z (pow10 f) - x
              == (inject_Z a - x * inject_Z (pow10 f)) * / inject_Z (pow10 f)).
  { field. intros H. rewrite H in HP. discriminate HP. }
  rewrite E, Qabs_Qmult.
  rewrite (Qabs_pos (/ inject_Z (pow10 f))).
  - reflexivity.
  - apply Qlt_le_weak, Qinv_lt_0_compat, HP.
Qed.

(** [roundHalfUp x f] is the integer ECMAScript asks for: no integer [k] has
    [k / 10^f] closer to [x], and one that is as close is not larger. *)
Lemma roundHalfUp_nearest (x : Q) (f : nat) (k : Z) :
  Qabs (inject_Z (roundHalfUp x f) / inject_Z (pow10 f) - x)
  <= Qabs (inject_Z k / inject_Z (pow10 f) - x)
  /\ (Qabs (inject_Z (roundHalfUp x f) / inject_Z (pow10 f) - x)
      == Qabs (inject_Z k / inject_Z (pow10 f) - x) ->
      (k <= roundHalfUp x f)%Z).
Proof.
  pose proof (pow10_pos f) as HP.
  destruct (nearest_integer (x * inject_Z (pow10 f)) k) as [Hle Htie].
  fold (roundHalfUp x f) in Hle, Htie.
  rewrite !scaled_distance. split.
  - apply Qmult_le_compat_r; [exact Hle|].
    apply Qlt_le_weak, Qinv_lt_0_compat, HP.
  - intros Heq. apply Htie.
    apply (Qmult_inj_r _ _ (/ inject_Z (pow10 f))); [|exact Heq].
    intros H. pose proof (Qinv_lt_0_compat _ HP) as HI.
    rewrite H in HI. discriminate HI.
Qed.

(** ** The text [toFixed] writes *)

Lemma allDigits_app (a b : string) :
  allDigits (a ++ b) = allDigits a && allDigits b.
Proof.
  induction a as [|c a IH]; cbn; [reflexivity|].
  rewrite IH. apply andb_assoc.
Qed.

Lemma allDigits_zeros (k : nat) : allDigits (zeros k) = true.
Proof. induction k; cbn; auto. Qed.

Lemma length_zeros (k : nat) : String.length (zeros k) = k.
Proof. induction k; cbn; auto. Qed.

Lemma length_app (a b : string) :
  String.length (a ++ b) = (String.length a + String.length b)%nat.
Proof. induction a; cbn; auto. Qed.

Lemma app_nil_r_string (a : string) : a ++ "" = a.
Proof. induction a; cbn; congruence. Qed.

Lemma app_assoc_string (a b c : string) : (a ++ b) ++ c = a ++ b ++ c.
Proof. induction a; cbn; congruence. Qed.

Lemma allDigits_uint (d : uint) : allDigits (NilEmpty.string_of_uint d) = true.
Proof. induction d; cbn; auto. Qed.

Lemma allDigits_digitsOf (n : Z) : allDigits (digitsOf n) = true.
Proof.
  unfold digitsOf, NilZero.string_of_uint.
  destruct (N.to_uint (Z.to_N n)) eqn:E; try reflexivity;
    rewrite <- E; apply allDigits_uint.
Qed.

Lemma digitsOf_nonempty (n : Z) : digitsOf n <> "".
Proof.
  unfold digitsOf, NilZero.string_of_uint.
  destruct (N.to_uint (Z.to_N n)); cbn; discriminate.
Qed.

Lemma allDigits_substring (s : string) : forall a b,
  allDigits s = true -> allDigits (substring a b s) = true.
Proof.
  induction s as [|c s IH]; intros a b H.
  - destruct a, b; reflexivity.
  - cbn in H. apply andb_true_iff in H. destruct H as [Hc Hs].
    destruct a as [|a]; cbn.
    + destruct b as [|b]; cbn; [reflexivity|].
      rewrite Hc. apply IH. exact Hs.
    + apply IH. exact Hs.
Qed.

Lemma length_substring (s : string) : forall a b,
  (a + b <= String.length s)%nat -> String.length (substring a b s) = b.
Proof.
  induction s as [|c s IH]; intros a b H; cbn in H.
  - assert (a = 0%nat) by lia. assert (b = 0%nat) by lia. subst. reflexivity.
  - destruct a as [|a]; cbn.
    + destruct b as [|b]; cbn; [reflexivity|].
      f_equal. apply (IH 0%nat). cbn. lia.
    + apply IH. lia.
Qed.

Lemma large_test_false (x : Q) :
  fixedNotation x -> Qle_bool (inject_Z (10 ^ 21)) (Qabs x) = false.
Proof.
  unfold fixedNotation. intros H.
  destruct (Qle_bool (inject_Z (10 ^ 21)) (Qabs x)) eqn:E; [|reflexivity].
  apply Qle_bool_iff in E. exfalso. exact (Qle_not_lt _ _ E H).
Qed.

(** Below 10^21 the text is an optional minus sign, at least one digit, and
    for [f > 0] a point followed by exactly [f] digits. *)
Lemma toFixed_shape (x : Q) (f : nat) :
  fixedNotation x ->
  exists sign ip fp,
    toFixed numberToString x f
      = sign ++ ip ++ (if (f =? 0)%nat then "" else "." ++ fp)
    /\ (sign = "" \/ sign = "-")
    /\ ip <> "" /\ allDigits ip = true
    /\ allDigits fp = true /\ String.length fp = f.
Proof.
  intros Hx. unfold toFixed. rewrite (large_test_false x Hx).
  set (sign := if Qle_bool 0 x then "" else "-").
  set (m := digitsOf (roundHalfUp (Qabs x) f)).
  assert (Hsign : sign = "" \/ sign = "-").
  { subst sign. destruct (Qle_bool 0 x); auto. }
  assert (Hm : allDigits m = true) by apply allDigits_digitsOf.
  assert (Hne : m <> "") by apply digitsOf_nonempty.
  destruct (f =? 0)%nat eqn:Ef.
  - apply Nat.eqb_eq in Ef. subst f.
    exists sign, m, "". rewrite app_nil_r_string.
    repeat split; auto.
  - apply Nat.eqb_neq in Ef.
    set (k := String.length m).
    set (m' := if (k <=? f)%nat then zeros (f + 1 - k) ++ m else m).
    set (k' := if (k <=? f)%nat then (f + 1)%nat else k).
    assert (Hm' : allDigits m' = true).
    { subst m'. destruct (k <=? f)%nat; [|exact Hm].
      rewrite allDigits_app, allDigits_zeros, Hm. reflexivity. }
    assert (Hk' : k' = String.length m' /\ (f < k')%nat).
    { subst m' k'. destruct (k <=? f)%nat eqn:Ek.
      - apply Nat.leb_le in Ek.
        rewrite length_app, length_zeros. fold k. lia.
      - apply Nat.leb_gt in Ek. fold k. lia. }
    destruct Hk' as [Hlen Hlt].
    exists sign, (substring 0 (k' - f) m'), (substring (k' - f) f m').
    split; [reflexivity|]. split; [exact Hsign|].
    split; [|split; [|split]].
    + intros E.
      assert (L : String.length (substring 0 (k' - f) m') = (k' - f)%nat).
      { apply length_substring. lia. }
      rewrite E in L. cbn in L. lia.
    + apply allDigits_substring. exact Hm'.
    + apply allDigits_substring. exact Hm'.
    + apply length_substring. lia.
Qed.

(** ** Reading the numerals of a text *)

Lemma scan_integer_digits (ip rest : string) :
  allDigits ip = true -> scan InInteger (ip ++ rest) = scan InInteger rest.
Proof.
  induction ip as [|c ip IH]; cbn; [reflexivity|].
  intros H. apply andb_true_iff in H. destruct H as [-> H]. auto.
Qed.

Lemma scan_fraction_digits (fp rest : string) : forall n,
  allDigits fp = true ->
  scan (AfterPoint n) (fp ++ rest)
  = scan (AfterPoint (n + String.length fp)) rest.
Proof.
  induction fp as [|c fp IH]; cbn; intros n H.
  - rewrite Nat.add_0_r. reflexivity.
  - apply andb_true_iff in H. destruct H as [-> H].
    rewrite IH by exact H. f_equal. f_equal. lia.
Qed.

Lemma scan_numeral_end (rest : string) (st : ScanState) :
  endsNumeral rest = true ->
  scan st rest = (flush st ++ scan Outside rest)%list.
Proof.
  destruct rest as [|c rest]; cbn.
  - intros _. rewrite app_nil_r. reflexivity.
  - intros H. apply andb_true_iff in H. destruct H as [Hd Hp].
    apply negb_true_iff in Hd. apply negb_true_iff in Hp.
    rewrite Hd, Hp. destruct st; reflexivity.
Qed.

(** A number written by [toFixed] with [f] places, followed by a text that
    ends it, is read back as one numeral with [f] places. *)
Lemma scan_toFixed (x : Q) (f : nat) (rest : string) :
  fixedNotation x -> endsNumeral rest = true ->
  scan Outside (toFixed numberToString x f ++ rest)
  = (f :: scan Outside rest)%list.
Proof.
  intros Hx Hrest.
  destruct (toFixed_shape x f Hx) as (sign & ip & fp & -> & Hs & Hne & Hip & Hfp & Hlen).
  rewrite !app_assoc_string.
  assert (Hstart : scan Outside (sign ++ ip ++ (if (f =? 0)%nat then "" else "." ++ fp) ++ rest)
                   = scan InInteger ((if (f =? 0)%nat then "" else "." ++ fp) ++ rest)).
  { destruct ip as [|c ip]; [congruence|].
    cbn in Hip. apply andb_true_iff in Hip. destruct Hip as [Hc Hip].
    destruct Hs as [-> | ->]; cbn; rewrite Hc; apply scan_integer_digits; exact Hip. }
  rewrite Hstart.
  destruct (f =? 0)%nat eqn:Ef.
  - apply Nat.eqb_eq in Ef. rewrite Ef. cbn [append].
    rewrite (scan_numeral_end rest InInteger Hrest). reflexivity.
  - cbn. rewrite (scan_fraction_digits fp rest 0 Hfp), Hlen.
    rewrite (scan_numeral_end rest _ Hrest). reflexivity.
Qed.

(** ** Detail texts *)

Lemma scan_outside_skip (c : ascii) (s : string) :
  isDigit c = false -> scan Outside (String c s) = scan Outside s.
Proof. intros H. cbn [scan]. rewrite H. reflexivity. Qed.

Ltac read_numerals :=
  unfold decimalPlaces;
  repeat first
    [ rewrite scan_toFixed; [ | assumption | reflexivity ]
    | rewrite scan_outside_skip by reflexivity
    | progress cbn [append] ];
  reflexivity.

(** C7, as the script has it.  With its measurement provided, and numbers
    below 10^21 in magnitude, a detail names the measured value(s) and then
    the allowed range or threshold: the measured voltage, frequency and
    ripple with 2 decimal places, the bounds of a range and a percent
    threshold with 1, a transient percent with 1, a duration with 0.  With its
    measurement missing, a detail is a fixed sentence without any number. *)
Theorem detail_precision_as_written (p : BusProfile) (m : Measurement) :
  frequencyConsistent p ->
  fixedNotationProfile p ->
  fixedNotationMeasurement m ->
  exists report cv cf cr cu co,
    evaluate numberToString (JProfile p) m = Ok report
    /\ checks report = cv :: (if hasFrequency p then [cf] else []) ++ [cr; cu; co]
    /\ (forall v, steadyVoltage m = Some v ->
        detail cv = "Measured: " ++ toFixed numberToString v 2
                    ++ " V, Allowed: "
                    ++ toFixed numberToString (fst (steadyVoltageRange p)) 1
                    ++ "–"
                    ++ toFixed numberToString (snd (steadyVoltageRange p)) 1
                    ++ " V"
        /\ decimalPlaces (detail cv) = writtenPlaces SteadyVoltageCheck)
    /\ (forall fr fMin fMax,
        hasFrequency p = true ->
        steadyFrequency m = Some fr -> frequencyRange p = Some (fMin, fMax) ->
        detail cf = "Measured: " ++ toFixed numberToString fr 2
                    ++ " Hz, Allowed: " ++ toFixed numberToString fMin 1
                    ++ "–" ++ toFixed numberToString fMax 1 ++ " Hz"
        /\ decimalPlaces (detail cf) = writtenPlaces FrequencyCheck)
    /\ (forall r, ripple m = Some r ->
        detail cr = "Measured: " ++ toFixed numberToString r 2
                    ++ " %, Allowed: ≤ "
                    ++ toFixed numberToString (ripplePercentMax p) 1 ++ " %"
        /\ decimalPlaces (detail cr) = writtenPlaces RippleCheck)
    /\ (forall pc du, uvDipPercent m = Some pc -> uvDipDuration m = Some du ->
        detail cu = "Measured: " ++ toFixed numberToString pc 1 ++ " % for "
                    ++ toFixed numberToString du 0 ++ " ms, Allowed: ≤ "
                    ++ toFixed numberToString (uvDipPercentMax p) 1
                    ++ " % for ≤ "
                    ++ toFixed numberToString (uvDurationMaxMs p) 0 ++ " ms"
        /\ decimalPlaces (detail cu) = writtenPlaces TransientCheck)
    /\ (forall pc du, ovSurgePercent m = Some pc -> ovSurgeDuration m = Some du ->
        detail co = "Measured: " ++ toFixed numberToString pc 1 ++ " % for "
                    ++ toFixed numberToString du 0 ++ " ms, Allowed: ≤ "
                    ++ toFixed numberToString (ovSurgePercentMax p) 1
                    ++ " % for ≤ "
                    ++ toFixed numberToString (ovDurationMaxMs p) 0 ++ " ms"
        /\ decimalPlaces (detail co) = writtenPlaces TransientCheck)
    /\ (steadyVoltage m = None -> decimalPlaces (detail cv) = [])
    /\ (hasFrequency p = true -> steadyFrequency m = None ->
        decimalPlaces (detail cf) = [])
    /\ (ripple m = None -> decimalPlaces (detail cr) = [])
    /\ (uvDipPercent m = None \/ uvDipDuration m = None ->
        decimalPlaces (detail cu) = [])
    /\ (ovSurgePercent m = None \/ ovSurgeDuration m = None ->
        decimalPlaces (detail co) = []).
Proof.
  intros Hp (Hrange & Hfrange & Hrmax & Hupc & Hudu & Hopc & Hodu)
         (Hv & Hf & Hr & Hup & Hud & Hop & Hod).
  destruct (evaluate_profile p m Hp)
    as (cv & cf & cr & cu & co & E & (_ & _ & Dv & Tv) & Hcf & (_ & _ & Dr & Tr)
        & (_ & _ & Du & Tu) & (_ & _ & Do & To)).
  destruct (steadyVoltageRange p) as [vMin vMax] eqn:Erange.
  unfold fixedNotationRange in Hrange. destruct Hrange as [HvMin HvMax].
  cbn [fst snd] in *.
  eexists. exists cv, cf, cr, cu, co.
  split; [exact E|]. split; [reflexivity|].
  split; [|split; [|split; [|split; [|split; [|split; [|split; [|split; [|split]]]]]]]].
  - intros v Hm. rewrite Hm in Hv. unfold fixedNotationOpt in Hv.
    rewrite (Tv v Hm). split; [reflexivity|]. read_numerals.
  - intros fr fMin fMax Hac Hm Hfr.
    rewrite Hm in Hf. unfold fixedNotationOpt in Hf.
    rewrite Hfr in Hfrange. unfold fixedNotationRange in Hfrange.
    destruct Hfrange as [HfMin HfMax].
    destruct (Hcf Hac) as (_ & _ & _ & Tf).
    rewrite (Tf fr fMin fMax Hm Hfr). split; [reflexivity|]. read_numerals.
  - intros r Hm. rewrite Hm in Hr. unfold fixedNotationOpt in Hr.
    rewrite (Tr r Hm). split; [reflexivity|]. read_numerals.
  - intros pc du Hpc Hdu. rewrite Hpc in Hup. rewrite Hdu in Hud.
    unfold fixedNotationOpt in Hup, Hud.
    rewrite (Tu pc du Hpc Hdu). split; [reflexivity|]. read_numerals.
  - intros pc du Hpc Hdu. rewrite Hpc in Hop. rewrite Hdu in Hod.
    unfold fixedNotationOpt in Hop, Hod.
    rewrite (To pc du Hpc Hdu). split; [reflexivity|]. read_numerals.
  - intros Hm. rewrite (Dv Hm). reflexivity.
  - intros Hac Hm. destruct (Hcf Hac) as (_ & _ & Df & _).
    rewrite (Df Hm). reflexivity.
  - intros Hm. rewrite (Dr Hm). reflexivity.
  - intros Hm. rewrite (Du Hm). reflexivity.
  - intros Hm. rewrite (Do Hm). reflexivity.
Qed.

(** ** Unknown bus types *)

Lemma ownProperty_none (entries : list (string * BusProfile)) (key : string) :
  ~ In key (map fst entries) -> ownProperty entries key = None.
Proof.
  induction entries as [|[k p] rest IH]; cbn [ownProperty map fst In];
    [reflexivity|].
  intros H. destruct (k =? key) eqn:E.
  - apply String.eqb_eq in E. exfalso. apply H. left. exact E.
  - apply IH. intros Hin. apply H. right. exact Hin.
Qed.

Lemma getProfile_undefined (busKey : string) :
  ~ In busKey (map fst busProfiles) ->
  ~ In busKey objectPrototypeProperties ->
  getProfile busKey = JUndefined.
Proof.
  intros Hown Hinherited. unfold getProfile.
  rewrite (ownProperty_none busProfiles busKey Hown).
  destruct (existsb (String.eqb busKey) objectPrototypeProperties) eqn:Ex;
    [|reflexivity].
  apply existsb_exists in Ex. destruct Ex as (name & Hin & Heq).
  apply String.eqb_eq in Heq. subst name. contradiction.
Qed.

(** Without a profile object the first property read throws: the range of
    step 1 when a voltage is provided, the flag of step 2 otherwise. *)
Lemma evaluate_undefined (m : Measurement) :
  evaluate numberToString JUndefined m = Throw TypeError.
Proof.
  unfold evaluate, stepSteadyVoltage, stepFrequency.
  destruct (steadyVoltage m); reflexivity.
Qed.

(** C2, as the script has it.  For a bus-type identifier that is neither a
    key of the registry nor a property name inherited from Object.prototype
    the lookup yields undefined; the evaluation then throws a TypeError for
    every measurement set, no report is produced, and the handler ends by
    that uncaught TypeError with the page as it was: nothing is rendered. *)
Theorem unknown_bus_type_throws_type_error (page : Page) :
  ~ In (busTypeValue page) (map fst busProfiles) ->
  ~ In (busTypeValue page) objectPrototypeProperties ->
  (forall m,
     evaluate numberToString (getProfile (busTypeValue page)) m = Throw TypeError)
  /\ runComplianceCheck trim Number numberToString page = (Throw TypeError, page).
Proof.
  intros Hown Hinherited.
  pose proof (getProfile_undefined _ Hown Hinherited) as E.
  split.
  - intros m. rewrite E. apply evaluate_undefined.
  - unfold runComplianceCheck. rewrite E, evaluate_undefined. reflexivity.
Qed.

(** ** Known bus types *)

(** X6.  On a registered kind of profile the handler completes: it renders
    the verdict and one item per check of the report, in the report's order. *)
Lemma runComplianceCheck_renders_report (page : Page) (p : BusProfile) :
  getProfile (busTypeValue page) = JProfile p ->
  frequencyConsistent p ->
  exists report page',
    evaluate numberToString (JProfile p) (readForm trim Number page) = Ok report
    /\ runComplianceCheck trim Number numberToString page = (Ok tt, page')
    /\ checklistItems (checklist page') = map checkItem (checks report)
    /\ statusPill (overallStatus page')
       = (if overallPass report then "PASS (Demo)" else "NOT COMPLIANT (Demo)").
Proof.
  intros Hkey Hp.
  destruct (evaluate_profile p (readForm trim Number page) Hp)
    as (cv & cf & cr & cu & co & E & _).
  unfold runComplianceCheck. rewrite Hkey, E.
  unfold renderSummary. cbn [prop bindO].
  eexists. eexists. split; [reflexivity|]. split; [reflexivity|].
  split; [reflexivity|].
  cbn [checklist renderChecklist setChecklist overallStatus setSummaryBlock
       overallPass].
  unfold renderOverallStatus.
  destruct (every _); reflexivity.
Qed.

(** ** The example for the 28 V bus *)

(** C8, as the script has it.  Profile "28vdc" with steadyVoltage=27.8,
    ripple=3, uvDipPercent=10, uvDipDuration=20, ovSurgePercent=10,
    ovSurgeDuration=20, and any or no frequency, gives a report of four
    checks (steady-state voltage, DC ripple, transient undervoltage, transient
    overvoltage) that all pass; the overall flag is true and the status pill
    reads PASS. *)
Theorem example_28vdc_four_checks_pass (frequency : option Q) (page : Page) :
  exists report,
    evaluate numberToString (getProfile "28vdc") (example28 frequency) = Ok report
    /\ map label (checks report) =
         [ "Steady-State Voltage"; "DC Ripple Voltage";
           "Transient Undervoltage"; "Transient Overvoltage" ]
    /\ map pass (checks report) = [ true; true; true; true ]
    /\ overallPass report = true
    /\ statusPill (overallStatus (renderOverallStatus (overallPass report) page))
       = "PASS (Demo)".
Proof.
  change (getProfile "28vdc") with (JProfile profile28vdc).
  assert (Hp : frequencyConsistent profile28vdc) by (intros H; discriminate H).
  destruct (evaluate_profile profile28vdc (example28 frequency) Hp)
    as (cv & cf & cr & cu & co & E & (Lv & Pv & _) & _ & (Lr & Pr & _)
        & (Lu & Pu & _) & (Lo & Po & _)).
  cbn in Pv, Pr, Pu, Po, Lr.
  cbn [hasFrequency profile28vdc app] in E.
  eexists. split; [exact E|]. cbn [checks overallPass].
  assert (Hall : every [cv; cr; cu; co] = true).
  { unfold every. cbn. rewrite Pv, Pr, Pu, Po. reflexivity. }
  split; [cbn; rewrite Lv, Lr, Lu, Lo; reflexivity|].
  split; [cbn; rewrite Pv, Pr, Pu, Po; reflexivity|].
  split; [exact Hall|].
  change (cv :: [] ++ [cr; cu; co])%list with [cv; cr; cu; co].
  rewrite Hall. reflexivity.
Qed.

End Properties.

(** * The registered profiles and the examples *)

Lemma registered_profiles_consistent (p : BusProfile) :
  In p (map snd busProfiles) -> frequencyConsistent p.
Proof.
  cbn. intros [<-|[<-|[]]] H.
  - discriminate H.
  - eexists. reflexivity.
Qed.

Lemma registered_profiles_fixed_notation (p : BusProfile) :
  In p (map snd busProfiles) -> fixedNotationProfile p.
Proof.
  cbn. intros [<-|[<-|[]]]; unfold fixedNotationProfile; cbn;
    repeat split; reflexivity.
Qed.

Lemma registered_ranges_ordered (p : BusProfile) :
  In p (map snd busProfiles) ->
  fst (steadyVoltageRange p) <= snd (steadyVoltageRange p).
Proof.
  cbn. intros [<-|[<-|[]]]; cbn; discriminate.
Qed.

Lemma example115_fixed_notation : fixedNotationMeasurement example115.
Proof. unfold fixedNotationMeasurement. cbn. repeat split; reflexivity. Qed.

Lemma in_28vdc : In profile28vdc (map snd busProfiles).
Proof. cbn. auto. Qed.

Lemma in_115vac400 : In profile115vac400 (map snd busProfiles).
Proof. cbn. auto. Qed.

(** A property name inherited from Object.prototype is not a key of the
    registry, and yet the handler completes on it when no measurement needs a
    limit: four failed checks are rendered. *)
Lemma inherited_property_renders_a_report :
  let result := runComplianceCheck trimAscii decimalLiteral wholeNumberToString
                  (idlePage "constructor" blankFields) in
  ~ In "constructor" (map fst busProfiles)
  /\ fst result = Ok tt
  /\ statusPill (overallStatus (snd result)) = "NOT COMPLIANT (Demo)"
  /\ map itemLabel (checklistItems (checklist (snd result)))
     = [ "Steady-State Voltage"; "DC Ripple Voltage";
         "Transient Undervoltage"; "Transient Overvoltage" ].
Proof.
  cbv zeta. split; [|vm_compute; auto].
  cbn. intros [H|[H|[]]]; discriminate H.
Qed.

(** The whole handler on the example for the 28 V bus, typed into the form. *)
Lemma example_28vdc_rendered :
  let result := runComplianceCheck trimAscii decimalLiteral wholeNumberToString
                  (idlePage "28vdc" fields28) in
  fst result = Ok tt
  /\ statusPill (overallStatus (snd result)) = "PASS (Demo)"
  /\ map itemPillText (checklistItems (checklist (snd result)))
     = [ "Within limit"; "Within limit"; "Within limit"; "Within limit" ]
  /\ summarySteadyVoltage (summaryBlock (snd result)) = "27.80 VDC".
Proof. vm_compute. auto. Qed.

(** ** Instances of the theorems *)

Lemma overall_pass_iff_every_check_passes_witness :
  frequencyConsistent profile115vac400
  /\ exists report,
      evaluate wholeNumberToString (JProfile profile115vac400) example115
        = Ok report
      /\ (overallPass report = true <->
          forall c, In c (checks report) -> pass c = true).
Proof.
  pose proof (registered_profiles_consistent _ in_115vac400) as Hp.
  split; [exact Hp|].
  destruct (overall_pass_iff_every_check_passes wholeNumberToString
              (JProfile profile115vac400) example115) as [Hex Hiff].
  destruct (Hex profile115vac400 eq_refl Hp) as [report E].
  exists report. split; [exact E|exact (Hiff report E)].
Defined.

Lemma report_labels_fixed_by_profile_witness :
  frequencyConsistent profile115vac400
  /\ exists report,
      evaluate wholeNumberToString (JProfile profile115vac400) noMeasurement
        = Ok report
      /\ map label (checks report) =
           [ "Steady-State Voltage"; "Steady-State Frequency";
             "AC Distortion / THD"; "Transient Undervoltage";
             "Transient Overvoltage" ]
      /\ length (checks report) = 5%nat.
Proof.
  pose proof (registered_profiles_consistent _ in_115vac400) as Hp.
  split; [exact Hp|].
  exact (report_labels_fixed_by_profile wholeNumberToString
           profile115vac400 noMeasurement Hp).
Defined.

Lemma steady_voltage_passes_iff_within_range_witness :
  frequencyConsistent profile28vdc
  /\ steadyVoltage (example28 None) = Some (278 # 10)
  /\ exists report c rest,
      evaluate wholeNumberToString (JProfile profile28vdc) (example28 None)
        = Ok report
      /\ checks report = c :: rest
      /\ label c = "Steady-State Voltage"
      /\ (forall c', In c' rest -> label c' <> "Steady-State Voltage")
      /\ (pass c = true <-> 22 <= 278 # 10 /\ 278 # 10 <= 29)
      /\ (22 <= 29 -> 278 # 10 == 22 \/ 278 # 10 == 29 -> pass c = true)
      /\ (278 # 10 == 22 - (1 # 100) \/ 278 # 10 == 29 + (1 # 100) ->
          pass c = false).
Proof.
  pose proof (registered_profiles_consistent _ in_28vdc) as Hp.
  split; [exact Hp|]. split; [reflexivity|].
  exact (steady_voltage_passes_iff_within_range wholeNumberToString
           profile28vdc (example28 None) (278 # 10) Hp eq_refl).
Defined.

Lemma absent_measurement_fails_its_check_witness :
  frequencyConsistent profile115vac400
  /\ parseNumber trimAscii decimalLiteral (idlePage "115vac400" blankFields)
       "steadyFrequency" = None
  /\ exists report,
      evaluate wholeNumberToString (JProfile profile115vac400) noMeasurement
        = Ok report
      /\ length (checks report) = 5%nat
      /\ In {| label := "Steady-State Frequency"; pass := false;
               detail := "No measured frequency provided for AC bus." |}
            (checks report).
Proof.
  pose proof (registered_profiles_consistent _ in_115vac400) as Hp.
  split; [exact Hp|].
  destruct (absent_measurement_fails_its_check trimAscii decimalLiteral
              wholeNumberToString profile115vac400 noMeasurement Hp)
    as (Hparse & report & E & Hlen & _ & Hfreq & _).
  split.
  - apply Hparse. cbn. left. reflexivity.
  - exists report. split; [exact E|]. split; [exact Hlen|].
    apply Hfreq; reflexivity.
Defined.

Lemma frequency_check_only_on_ac_witness :
  hasFrequency profile28vdc = false
  /\ (exists report,
        evaluate wholeNumberToString (JProfile profile28vdc)
          (example28 (Some 400)) = Ok report
        /\ filter (fun c => label c =? "Steady-State Frequency") (checks report)
           = [])
  /\ hasFrequency profile115vac400 = true
  /\ frequencyRange profile115vac400 = Some (395, 405)
  /\ exists report c,
      evaluate wholeNumberToString (JProfile profile115vac400) example115
        = Ok report
      /\ filter (fun c => label c =? "Steady-State Frequency") (checks report)
         = [c]
      /\ (pass c = true <->
          exists fr, steadyFrequency example115 = Some fr
                     /\ 395 <= fr /\ fr <= 405)
      /\ (steadyFrequency example115 = None -> pass c = false).
Proof.
  split; [reflexivity|]. split.
  - exact (proj1 (frequency_check_only_on_ac wholeNumberToString profile28vdc
                    (example28 (Some 400))) eq_refl).
  - split; [reflexivity|]. split; [reflexivity|].
    exact (proj2 (frequency_check_only_on_ac wholeNumberToString
                    profile115vac400 example115) 395 405 eq_refl eq_refl).
Defined.

Lemma transient_checks_need_both_values_witness :
  frequencyConsistent profile115vac400
  /\ exists report front cu co,
      evaluate wholeNumberToString (JProfile profile115vac400) example115
        = Ok report
      /\ checks report = (front ++ [cu; co])%list
      /\ label cu = "Transient Undervoltage"
      /\ label co = "Transient Overvoltage"
      /\ pass cu = true
      /\ pass co = false.
Proof.
  pose proof (registered_profiles_consistent _ in_115vac400) as Hp.
  split; [exact Hp|].
  destruct (transient_checks_need_both_values wholeNumberToString
              profile115vac400 example115 Hp)
    as (report & front & cu & co & E & Hc & Lu & Lo & Hu & _ & Ho & _).
  exists report, front, cu, co.
  split; [exact E|]. split; [exact Hc|]. split; [exact Lu|]. split; [exact Lo|].
  split.
  - apply Hu. exists 15, 40. cbn. repeat split; discriminate.
  - apply not_true_is_false. intros H. apply Ho in H.
    destruct H as (pc & du & Epc & _ & Hle & _).
    cbn in Epc. injection Epc as <-. cbn in Hle. apply Hle. reflexivity.
Defined.

Lemma upper_bound_checks_have_no_lower_bound_witness :
  frequencyConsistent profile28vdc
  /\ exists report cr,
      evaluate wholeNumberToString (JProfile profile28vdc)
        {| steadyVoltage := None; steadyFrequency := None;
           ripple := Some (- (1));
           uvDipPercent := Some (- (5)); uvDipDuration := Some 0;
           ovSurgePercent := None; ovSurgeDuration := None |} = Ok report
      /\ In cr (checks report)
      /\ label cr = "DC Ripple Voltage"
      /\ pass cr = true.
Proof.
  pose proof (registered_profiles_consistent _ in_28vdc) as Hp.
  split; [exact Hp|].
  destruct (upper_bound_checks_have_no_lower_bound wholeNumberToString
              profile28vdc
              {| steadyVoltage := None; steadyFrequency := None;
                 ripple := Some (- (1));
                 uvDipPercent := Some (- (5)); uvDipDuration := Some 0;
                 ovSurgePercent := None; ovSurgeDuration := None |} Hp)
    as (report & cr & cu & co & E & Ir & _ & _ & Lr & _ & _ & _ & _ & _ & _ & Hr).
  exists report, cr.
  split; [exact E|]. split; [exact Ir|]. split; [exact Lr|].
  apply Hr; [exact in_28vdc|reflexivity].
Defined.

Lemma detail_precision_as_written_witness :
  frequencyConsistent profile115vac400
  /\ fixedNotationProfile profile115vac400
  /\ fixedNotationMeasurement example115
  /\ exists report cv cf cr cu co,
      evaluate wholeNumberToString (JProfile profile115vac400) example115
        = Ok report
      /\ checks report = [cv; cf; cr; cu; co]
      /\ decimalPlaces (detail cv) = [2; 1; 1]%nat
      /\ decimalPlaces (detail cf) = [2; 1; 1]%nat
      /\ decimalPlaces (detail cr) = [2; 1]%nat
      /\ decimalPlaces (detail cu) = [1; 0; 1; 0]%nat
      /\ decimalPlaces (detail co) = [1; 0; 1; 0]%nat.
Proof.
  pose proof (registered_profiles_consistent _ in_115vac400) as Hp.
  pose proof (registered_profiles_fixed_notation _ in_115vac400) as Hn.
  pose proof example115_fixed_notation as Hm.
  split; [exact Hp|]. split; [exact Hn|]. split; [exact Hm|].
  destruct (detail_precision_as_written wholeNumberToString
              profile115vac400 example115 Hp Hn Hm)
    as (report & cv & cf & cr & cu & co & E & Hc & Hv & Hf & Hr & Hu & Ho & _).
  exists report, cv, cf, cr, cu, co.
  split; [exact E|]. split; [exact Hc|].
  split; [exact (proj2 (Hv _ eq_refl))|].
  split; [exact (proj2 (Hf _ _ _ eq_refl eq_refl eq_refl))|].
  split; [exact (proj2 (Hr _ eq_refl))|].
  split; [exact (proj2 (Hu _ _ eq_refl eq_refl))|].
  exact (proj2 (Ho _ _ eq_refl eq_refl)).
Defined.

Lemma unknown_bus_type_throws_type_error_witness :
  ~ In "270vdc" (map fst busProfiles)
  /\ ~ In "270vdc" objectPrototypeProperties
  /\ (forall m,
        evaluate wholeNumberToString (getProfile "270vdc") m = Throw TypeError)
  /\ runComplianceCheck trimAscii decimalLiteral wholeNumberToString
       (idlePage "270vdc" fields28)
     = (Throw TypeError, idlePage "270vdc" fields28).
Proof.
  assert (Hown : ~ In "270vdc" (map fst busProfiles)).
  { cbn. intros [H|[H|[]]]; discriminate H. }
  assert (Hinh : ~ In "270vdc" objectPrototypeProperties).
  { cbn. intros H. repeat (destruct H as [H|H]; [discriminate H|]). exact H. }
  split; [exact Hown|]. split; [exact Hinh|].
  exact (unknown_bus_type_throws_type_error trimAscii decimalLiteral
           wholeNumberToString (idlePage "270vdc" fields28) Hown Hinh).
Defined.

(** ** Where the specification and the script part *)

(** C2 as stated fails.  "270vdc" is not a key of the registry: the handler
    ends by an uncaught TypeError, which is no NotFound condition of its own.
    "constructor" is not a key of the registry either: with no measurement
    entered the handler completes and renders a report. *)
Lemma unknown_bus_type_counterexample :
  (~ In "270vdc" (map fst busProfiles)
   /\ fst (runComplianceCheck trimAscii decimalLiteral wholeNumberToString
             (idlePage "270vdc" fields28)) = Throw TypeError)
  /\ (~ In "constructor" (map fst busProfiles)
      /\ fst (runComplianceCheck trimAscii decimalLiteral wholeNumberToString
                (idlePage "constructor" blankFields)) = Ok tt
      /\ length (checklistItems (checklist
           (snd (runComplianceCheck trimAscii decimalLiteral wholeNumberToString
                   (idlePage "constructor" blankFields))))) = 4%nat).
Proof.
  split; (split; [cbn; intros [H|[H|[]]]; discriminate H|]).
  - vm_compute. reflexivity.
  - split; vm_compute; reflexivity.
Qed.

(** C7 as stated fails on the example for the 400 Hz bus: the bounds of the
    voltage and of the frequency range are written with 1 decimal place, not
    2, and the measured distortion percentage with 2, not 1. *)
Lemma detail_precision_counterexample :
  exists report,
    evaluate wholeNumberToString (getProfile "115vac400") example115 = Ok report
    /\ map detail (checks report) =
         [ "Measured: 113.50 V, Allowed: 108.0–118.0 V";
           "Measured: 402.00 Hz, Allowed: 395.0–405.0 Hz";
           "Measured: 4.00 %, Allowed: ≤ 5.0 %";
           "Measured: 15.0 % for 40 ms, Allowed: ≤ 20.0 % for ≤ 50 ms";
           "Measured: 25.0 % for 40 ms, Allowed: ≤ 20.0 % for ≤ 50 ms" ]
    /\ map (detailHas statedPlaces) (checks report)
       = [ false; false; false; true; true ].
Proof.
  eexists. split; [vm_compute; reflexivity|].
  split; vm_compute; reflexivity.
Qed.

(** C8 as stated fails: the report for the 28 V bus has no five checks. *)
Lemma example_28vdc_counterexample :
  ~ exists report,
      evaluate wholeNumberToString (getProfile "28vdc") (example28 None)
        = Ok report
      /\ length (checks report) = 5%nat.
Proof.
  intros (report & E & Hlen).
  vm_compute in E. injection E as <-. discriminate Hlen.
Qed.

(** * The handlers on the page *)

(** ** Class lists *)

Lemma existsb_eqb_in (c : string) (names : list string) :
  existsb (String.eqb c) names = true <-> In c names.
Proof.
  rewrite existsb_exists. split.
  - intros (x & Hin & E). apply String.eqb_eq in E. subst x. exact Hin.
  - intros Hin. exists c. split; [exact Hin|apply String.eqb_refl].
Qed.

Lemma in_classRemove (c : string) (names classes : list string) :
  In c (classRemove names classes) <-> In c classes /\ ~ In c names.
Proof.
  unfold classRemove. rewrite filter_In, negb_true_iff.
  rewrite <- (existsb_eqb_in c names).
  destruct (existsb (String.eqb c) names); split; intros [H1 H2];
    split; try assumption; try discriminate; try congruence.
Qed.

Lemma in_classAdd (c name : string) (classes : list string) :
  In c (classAdd name classes) <-> c = name \/ In c classes.
Proof.
  unfold classAdd.
  destruct (existsb (String.eqb name) classes) eqn:E.
  - apply existsb_eqb_in in E. split; [auto|].
    intros [-> | H]; assumption.
  - rewrite in_app_iff. cbn. split.
    + intros [H|[H|[]]]; [right; exact H|left; symmetry; exact H].
    + intros [-> | H]; [right; left; reflexivity|left; exact H].
Qed.

Lemma classRemove_idempotent (names classes : list string) :
  classRemove names (classRemove names classes) = classRemove names classes.
Proof.
  unfold classRemove. induction classes as [|c classes IH]; cbn; [reflexivity|].
  destruct (negb (existsb (String.eqb c) names)) eqn:E; cbn.
  - rewrite E, IH. reflexivity.
  - exact IH.
Qed.

Lemma classRemove_last (names classes : list string) (name : string) :
  In name names ->
  classRemove names (classes ++ [name]) = classRemove names classes.
Proof.
  intros Hin. unfold classRemove. rewrite filter_app. cbn.
  apply existsb_eqb_in in Hin. rewrite Hin. cbn. apply app_nil_r.
Qed.

Lemma classAdd_removed (names classes : list string) (name : string) :
  In name names ->
  classAdd name (classRemove names classes)
  = (classRemove names classes ++ [name])%list.
Proof.
  intros Hin. unfold classAdd.
  destruct (existsb (String.eqb name) (classRemove names classes)) eqn:E;
    [|reflexivity].
  apply existsb_eqb_in in E. apply in_classRemove in E. tauto.
Qed.

(** Removing a set of classes and adding one of them again settles after
    once. *)
Lemma class_toggle_idempotent (names classes : list string) (name : string) :
  In name names ->
  classAdd name (classRemove names (classAdd name (classRemove names classes)))
  = classAdd name (classRemove names classes).
Proof.
  intros Hin.
  rewrite (classAdd_removed names classes name Hin).
  rewrite (classRemove_last names _ name Hin), classRemove_idempotent.
  apply (classAdd_removed names classes name Hin).
Qed.

(** ** [renderOverallStatus] *)

Lemma status_classes_after_render (verdict : bool) (page : Page) :
  let before := statusClasses (overallStatus page) in
  let after := statusClasses (overallStatus (renderOverallStatus verdict page)) in
  (In "overall-status--pass" after <-> verdict = true)
  /\ (In "overall-status--fail" after <-> verdict = false)
  /\ ~ In "overall-status--idle" after
  /\ (forall c, c <> "overall-status--idle" -> c <> "overall-status--pass" ->
                c <> "overall-status--fail" -> (In c after <-> In c before)).
Proof.
  cbv zeta. unfold renderOverallStatus.
  destruct verdict; cbn [overallStatus setOverallStatus statusClasses];
    (split; [|split; [|split]]); try (intros c H1 H2 H3);
    rewrite in_classAdd, in_classRemove; cbn [In];
    intuition (discriminate || congruence).
Qed.

(** X1.  After the verdict is rendered the status element carries exactly
    one of its three state classes, the one of the verdict, whatever it
    carried before; every other class is kept. *)
Theorem renderOverallStatus_one_state_class (verdict : bool) (page : Page) :
  let before := statusClasses (overallStatus page) in
  let after := statusClasses (overallStatus (renderOverallStatus verdict page)) in
  (In "overall-status--pass" after <-> verdict = true)
  /\ (In "overall-status--fail" after <-> verdict = false)
  /\ ~ In "overall-status--idle" after
  /\ (forall c, c <> "overall-status--idle" -> c <> "overall-status--pass" ->
                c <> "overall-status--fail" -> (In c after <-> In c before)).
Proof.
  cbv zeta. unfold renderOverallStatus.
  destruct verdict; cbn [overallStatus setOverallStatus statusClasses];
    (split; [|split; [|split]]); try (intros c H1 H2 H3);
    rewrite in_classAdd, in_classRemove; cbn [In];
    intuition (discriminate || congruence).
Qed.

(** ** The registry *)

Lemma getProfile_registered (busKey : string) (p : BusProfile) :
  getProfile busKey = JProfile p ->
  (busKey = "28vdc" /\ p = profile28vdc)
  \/ (busKey = "115vac400" /\ p = profile115vac400).
Proof.
  unfold getProfile, busProfiles. cbn [ownProperty].
  destruct ("28vdc" =? busKey) eqn:E1.
  { apply String.eqb_eq in E1. intros E. injection E as <-. auto. }
  destruct ("115vac400" =? busKey) eqn:E2.
  { apply String.eqb_eq in E2. intros E. injection E as <-. auto. }
  destruct (existsb (String.eqb busKey) objectPrototypeProperties);
    discriminate.
Qed.

(** X10.  The lookup yields a profile for the two registered identifiers
    only, matched exactly, and what it yields is well formed: the nominal
    voltage lies within the steady-state range, the frequency range is there
    exactly when hasFrequency is true and is ordered, and no maximum is
    negative. *)
Theorem registered_profiles_well_formed (busKey : string) (p : BusProfile) :
  getProfile busKey = JProfile p ->
  In (busKey, p) busProfiles
  /\ fst (steadyVoltageRange p) <= nominalVoltage p
  /\ nominalVoltage p <= snd (steadyVoltageRange p)
  /\ (hasFrequency p = true <-> frequencyRange p <> None)
  /\ (forall fMin fMax, frequencyRange p = Some (fMin, fMax) -> fMin <= fMax)
  /\ 0 <= ripplePercentMax p
  /\ 0 <= uvDipPercentMax p /\ 0 <= uvDurationMaxMs p
  /\ 0 <= ovSurgePercentMax p /\ 0 <= ovDurationMaxMs p.
Proof.
  intros H. destruct (getProfile_registered busKey p H) as [[-> ->]|[-> ->]];
    cbn.
  - split; [auto|]. repeat (split; [discriminate|]).
    split; [split; [discriminate|intros E; contradiction E; reflexivity]|].
    split; [discriminate|]. repeat split; discriminate.
  - split; [auto|]. repeat (split; [discriminate|]).
    split; [split; [discriminate|reflexivity]|].
    split; [intros fMin fMax E; injection E as <- <-; discriminate|].
    repeat split; discriminate.
Qed.

(** ** The verdict *)

Lemma range_pass_spec (value : option Q) (lo hi : Q) :
  match value with
  | Some v => Qle_bool lo v && Qle_bool v hi
  | None => false
  end = true <->
  exists v, value = Some v /\ lo <= v /\ v <= hi.
Proof.
  destruct value as [v|].
  - rewrite within_spec. split.
    + intros H. exists v. split; [reflexivity|exact H].
    + intros (v' & E & H). injection E as <-. exact H.
  - split; [discriminate|]. intros (v' & E & _). discriminate E.
Qed.

Lemma limit_pass_spec (value : option Q) (limit : Q) :
  match value with
  | Some r => Qle_bool r limit
  | None => false
  end = true <->
  exists r, value = Some r /\ r <= limit.
Proof.
  destruct value as [r|].
  - rewrite Qle_bool_iff. split.
    + intros H. exists r. split; [reflexivity|exact H].
    + intros (r' & E & H). injection E as <-. exact H.
  - split; [discriminate|]. intros (r' & E & _). discriminate E.
Qed.

Lemma every_false (cs : list CheckResult) :
  every cs = false -> exists c, In c cs /\ pass c = false.
Proof.
  unfold every. induction cs as [|c cs IH]; cbn; [discriminate|].
  destruct (pass c) eqn:E; cbn.
  - intros H. destruct (IH H) as (c' & Hin & Hc'). exists c'. auto.
  - intros _. exists c. auto.
Qed.

Section HandlerProperties.

Set Default Proof Using "Type".

Variable trim : string -> string.
Variable Number : string -> JsNumber.
Variable numberToString : Q -> string.
Variable formReset :
  string * (string -> option string) -> string * (string -> option string).

(** ** The evaluator *)

(** X7.  The verdict is PASS exactly when every needed measurement is
    provided and within its limit: the voltage within the steady-state range,
    on an AC bus the frequency within the frequency range, the ripple at or
    below its maximum, and both values of each transient at or below theirs. *)
Theorem overall_pass_characterised (p : BusProfile) (m : Measurement) :
  frequencyConsistent p ->
  exists report,
    evaluate numberToString (JProfile p) m = Ok report
    /\ (overallPass report = true <->
        (exists v, steadyVoltage m = Some v
                   /\ fst (steadyVoltageRange p) <= v
                   /\ v <= snd (steadyVoltageRange p))
        /\ (hasFrequency p = true ->
            exists fr fMin fMax,
              steadyFrequency m = Some fr
              /\ frequencyRange p = Some (fMin, fMax)
              /\ fMin <= fr /\ fr <= fMax)
        /\ (exists r, ripple m = Some r /\ r <= ripplePercentMax p)
        /\ (exists pc du, uvDipPercent m = Some pc /\ uvDipDuration m = Some du
                          /\ pc <= uvDipPercentMax p /\ du <= uvDurationMaxMs p)
        /\ (exists pc du, ovSurgePercent m = Some pc /\ ovSurgeDuration m = Some du
                          /\ pc <= ovSurgePercentMax p
                          /\ du <= ovDurationMaxMs p)).
Proof.
  intros Hp.
  destruct (evaluate_profile numberToString p m Hp)
    as (cv & cf & cr & cu & co & E & (_ & Pv & _) & Hf & (_ & Pr & _)
        & (_ & Pu & _) & (_ & Po & _)).
  eexists. split; [exact E|]. cbn [overallPass].
  rewrite <- (range_pass_spec (steadyVoltage m)), <- Pv.
  rewrite <- (limit_pass_spec (ripple m)), <- Pr.
  rewrite <- (transient_pass_spec (uvDipPercent m)), <- Pu.
  rewrite <- (transient_pass_spec (ovSurgePercent m)), <- Po.
  unfold every. destruct (hasFrequency p) eqn:Hac.
  - destruct (Hf eq_refl) as (_ & Pf & _).
    destruct (Hp Hac) as [[fMin fMax] Hrange]. rewrite Hrange in Pf.
    change ([cf] ++ [cr; cu; co])%list with [cf; cr; cu; co].
    cbn [forallb]. rewrite !andb_true_iff.
    assert (Hfreq : pass cf = true <->
                    exists fr fMin0 fMax0,
                      steadyFrequency m = Some fr
                      /\ frequencyRange p = Some (fMin0, fMax0)
                      /\ fMin0 <= fr /\ fr <= fMax0).
    { rewrite Pf, range_pass_spec, Hrange. split.
      - intros (fr & Efr & H). exists fr, fMin, fMax. auto.
      - intros (fr & a & b & Efr & Eab & H').
        injection Eab as <- <-. exists fr. auto. }
    split.
    + intros (H1 & H2 & H3 & H4 & H5 & _).
      split; [exact H1|]. split; [intros _; apply Hfreq; exact H2|]. auto.
    + intros (H1 & H2 & H3 & H4 & H5).
      split; [exact H1|]. split; [apply Hfreq, H2; reflexivity|]. auto.
  - change ([] ++ [cr; cu; co])%list with [cr; cu; co].
    cbn [forallb]. rewrite !andb_true_iff. split.
    + intros (H1 & H3 & H4 & H5 & _).
      repeat split; try assumption. discriminate.
    + intros (H1 & _ & H3 & H4 & H5). auto.
Qed.

(** X8.  On a profile without frequency neither the report nor the summary
    depends on the frequency field: any two frequency inputs, given or not,
    lead to the same result of the evaluation and to the same rendering. *)
Theorem dc_ignores_frequency (p : BusProfile) (m : Measurement)
    (frequency : option Q) (page : Page) :
  hasFrequency p = false ->
  evaluate numberToString (JProfile p) (withFrequency frequency m)
  = evaluate numberToString (JProfile p) m
  /\ renderSummary numberToString (JProfile p) (withFrequency frequency m) page
     = renderSummary numberToString (JProfile p) m page.
Proof.
  intros Hac. split.
  - unfold evaluate, stepSteadyVoltage, stepFrequency, stepRipple,
      stepUndervoltage, stepOvervoltage, rippleLabel.
    cbn [prop bindO withFrequency steadyVoltage ripple uvDipPercent
         uvDipDuration ovSurgePercent ovSurgeDuration truthy].
    rewrite Hac. reflexivity.
  - unfold renderSummary.
    cbn [prop bindO withFrequency steadyVoltage ripple uvDipPercent
         uvDipDuration ovSurgePercent ovSurgeDuration truthy].
    rewrite Hac. reflexivity.
Qed.

(** X9.  On an object that is no profile (a property inherited from
    Object.prototype) the evaluation throws a TypeError exactly when it has
    to read a limit; otherwise it completes with the four checks of a DC bus,
    all failed. *)
Theorem inherited_object_evaluation (m : Measurement) :
  (readsLimit m = true ->
   evaluate numberToString JInherited m = Throw TypeError)
  /\ (readsLimit m = false ->
      exists report,
        evaluate numberToString JInherited m = Ok report
        /\ map label (checks report) =
             [ "Steady-State Voltage"; "DC Ripple Voltage";
               "Transient Undervoltage"; "Transient Overvoltage" ]
        /\ map pass (checks report) = [ false; false; false; false ]
        /\ overallPass report = false).
Proof.
  destruct m as [v f r up ud op od]. unfold readsLimit.
  cbn [steadyVoltage ripple uvDipPercent uvDipDuration ovSurgePercent
       ovSurgeDuration].
  unfold evaluate, stepSteadyVoltage, stepFrequency, stepRipple,
    stepUndervoltage, stepOvervoltage, transientCheck, rippleLabel.
  cbn [steadyVoltage steadyFrequency ripple uvDipPercent uvDipDuration
       ovSurgePercent ovSurgeDuration prop bindO destructure nullish truthy
       lessEq toFixedOf].
  destruct v, r, up, ud, op, od; cbn [given orb andb bindO destructure];
    (split; [intros H; first [reflexivity|discriminate H]
            |intros H; first [discriminate H
                             |eexists; split; [reflexivity|];
                              repeat split; reflexivity]]).
Qed.

(** ** [runComplianceCheck] on any page *)

Lemma readForm_inputs (page page' : Page) :
  inputValue page' = inputValue page ->
  readForm trim Number page' = readForm trim Number page.
Proof.
  intros E. unfold readForm, parseNumber. rewrite E. reflexivity.
Qed.

Lemma evaluate_ok_defined (profile : JsRef) (m : Measurement)
    (report : ComplianceReport) :
  evaluate numberToString profile m = Ok report -> profile <> JUndefined.
Proof.
  intros E ->. rewrite evaluate_undefined in E. discriminate E.
Qed.

(** With a profile object at hand [renderSummary] completes; it writes the
    summary block only and leaves it shown. *)
Lemma renderSummary_completes (profile : JsRef) (values : Measurement)
    (page : Page) :
  profile <> JUndefined ->
  exists block,
    renderSummary numberToString profile values page
      = (Ok tt, setSummaryBlock block page)
    /\ summaryClasses block
       = classRemove [ "summary-block--hidden" ]
                     (summaryClasses (summaryBlock page)).
Proof.
  intros Hp. unfold renderSummary.
  destruct profile as [| |p]; [contradiction| |]; cbn [prop bindO];
    eexists; (split; [reflexivity|reflexivity]).
Qed.

(** Rendering the summary over its own result writes the same block. *)
Lemma renderSummary_again (profile : JsRef) (values : Measurement)
    (page page' : Page) (block : SummaryBlock) :
  renderSummary numberToString profile values page
    = (Ok tt, setSummaryBlock block page) ->
  summaryBlock page' = block ->
  renderSummary numberToString profile values page'
    = (Ok tt, setSummaryBlock block page').
Proof.
  unfold renderSummary.
  destruct profile as [| |p]; cbn [prop bindO]; [discriminate| |];
    intros E Hb; injection E as E; rewrite Hb; rewrite <- E;
    cbn [summaryClasses]; rewrite classRemove_idempotent; reflexivity.
Qed.

(** The handler either throws out of the evaluation, before it has written
    anything, or renders verdict, summary and checklist and completes. *)
Lemma runComplianceCheck_cases (page : Page) :
  let profile := getProfile (busTypeValue page) in
  let values := readForm trim Number page in
  (exists e,
     evaluate numberToString profile values = Throw e
     /\ runComplianceCheck trim Number numberToString page = (Throw e, page))
  \/ (exists report block,
        evaluate numberToString profile values = Ok report
        /\ summaryClasses block
           = classRemove [ "summary-block--hidden" ]
                         (summaryClasses (summaryBlock page))
        /\ renderSummary numberToString profile values
             (renderOverallStatus (overallPass report) page)
           = (Ok tt, setSummaryBlock block
                       (renderOverallStatus (overallPass report) page))
        /\ runComplianceCheck trim Number numberToString page
           = (Ok tt,
              renderChecklist (checks report)
                (setSummaryBlock block
                   (renderOverallStatus (overallPass report) page)))).
Proof.
  cbv zeta. unfold runComplianceCheck.
  destruct (evaluate numberToString (getProfile (busTypeValue page))
              (readForm trim Number page)) as [report|e] eqn:E.
  - right.
    destruct (renderSummary_completes (getProfile (busTypeValue page))
                (readForm trim Number page)
                (renderOverallStatus (overallPass report) page)
                (evaluate_ok_defined _ _ _ E)) as (block & Hs & Hc).
    exists report, block. split; [reflexivity|]. split.
    + rewrite Hc. unfold renderOverallStatus.
      destruct (overallPass report); reflexivity.
    + split; [exact Hs|]. rewrite Hs. reflexivity.
  - left. exists e. split; reflexivity.
Qed.

(** X2.  The handler is all or nothing: when it ends by an exception, for
    whatever bus type and inputs, the page is exactly as it was. *)
Theorem runComplianceCheck_throw_leaves_page (page : Page) (e : JsError) :
  fst (runComplianceCheck trim Number numberToString page) = Throw e ->
  snd (runComplianceCheck trim Number numberToString page) = page.
Proof.
  destruct (runComplianceCheck_cases page)
    as [(e' & _ & ->)|(report & block & _ & _ & _ & ->)]; cbn [fst snd].
  - reflexivity.
  - discriminate.
Qed.

(** X3.  The handler never writes to the form: the selected bus type and
    the value of every input are after the run what they were before. *)
Theorem runComplianceCheck_keeps_form (page : Page) :
  let page' := snd (runComplianceCheck trim Number numberToString page) in
  busTypeValue page' = busTypeValue page /\ inputValue page' = inputValue page.
Proof.
  cbv zeta.
  destruct (runComplianceCheck_cases page)
    as [(e' & _ & ->)|(report & block & _ & _ & _ & ->)]; cbn [fst snd].
  - split; reflexivity.
  - unfold renderOverallStatus. destruct (overallPass report); split; reflexivity.
Qed.

(** X4.  Submitting the unchanged form a second time changes nothing: the
    second run ends as the first did and leaves the page the first run left. *)
Theorem runComplianceCheck_idempotent (page : Page) :
  runComplianceCheck trim Number numberToString
    (snd (runComplianceCheck trim Number numberToString page))
  = runComplianceCheck trim Number numberToString page.
Proof.
  destruct (runComplianceCheck_cases page)
    as [(e' & _ & E)|(report & block & Hev & Hc & Hs & E)].
  - rewrite E. cbn [snd]. exact E.
  - rewrite E. cbn [snd].
    set (page' := renderChecklist (checks report)
                    (setSummaryBlock block
                       (renderOverallStatus (overallPass report) page))).
    assert (Hkey : busTypeValue page' = busTypeValue page).
    { subst page'. unfold renderOverallStatus.
      destruct (overallPass report); reflexivity. }
    assert (Hin : inputValue page' = inputValue page).
    { subst page'. unfold renderOverallStatus.
      destruct (overallPass report); reflexivity. }
    destruct (runComplianceCheck_cases page')
      as [(e' & Hev' & _)|(report' & block' & Hev' & Hc' & Hs' & E')].
    + rewrite Hkey, (readForm_inputs _ _ Hin), Hev in Hev'. discriminate Hev'.
    + rewrite Hkey, (readForm_inputs _ _ Hin), Hev in Hev'.
      injection Hev' as <-.
      rewrite E'. f_equal.
      rewrite Hkey, (readForm_inputs _ _ Hin) in Hs'.
      assert (Hblock : summaryBlock (renderOverallStatus (overallPass report) page')
                       = block).
      { subst page'. unfold renderOverallStatus.
        destruct (overallPass report); reflexivity. }
      rewrite (renderSummary_again _ _ _ _ _ Hs Hblock) in Hs'.
      injection Hs' as <-.
      subst page'. unfold renderChecklist, renderOverallStatus.
      destruct (overallPass report);
        cbn [setChecklist setSummaryBlock setOverallStatus busTypeValue
             inputValue overallStatus summaryBlock checklist statusClasses
             checklistClasses];
        rewrite classRemove_idempotent;
        rewrite class_toggle_idempotent by (cbn; auto);
        reflexivity.
Qed.

(** ** [updateBusMode] *)

Lemma onPage_same (doc : Document) : onPage (docPage doc) doc = doc.
Proof. destruct doc; reflexivity. Qed.

(** X11.  On a registered bus type [updateBusMode] completes and touches
    the body class and the two texts of the voltage field only: the body
    carries ac-mode exactly when the profile has a frequency, every other
    class of the body is kept, and the unit reads VDC exactly when the
    profile has no frequency, VAC (RMS) exactly when it has one. *)
Theorem updateBusMode_registered (doc : Document) (p : BusProfile) :
  getProfile (busTypeValue (docPage doc)) = JProfile p ->
  exists doc',
    updateBusMode doc = (Ok tt, doc')
    /\ docPage doc' = docPage doc
    /\ checklistPlaceholder doc' = checklistPlaceholder doc
    /\ (In "ac-mode" (bodyClasses doc') <-> hasFrequency p = true)
    /\ (forall c, c <> "ac-mode" ->
                  (In c (bodyClasses doc') <-> In c (bodyClasses doc)))
    /\ (steadyVoltageUnit doc' = "VDC" <-> hasFrequency p = false)
    /\ (steadyVoltageUnit doc' = "VAC (RMS)" <-> hasFrequency p = true).
Proof.
  intros Hkey. unfold updateBusMode. rewrite Hkey. cbn [prop truthy].
  destruct (getProfile_registered _ _ Hkey) as [[-> ->]|[-> ->]];
    cbn [hasFrequency profile28vdc profile115vac400 String.eqb Ascii.eqb
         Bool.eqb];
    eexists; (split; [reflexivity|]);
    cbn [docPage checklistPlaceholder bodyClasses steadyVoltageUnit];
    (split; [reflexivity|]); (split; [reflexivity|]).
  - split; [|split; [|split]].
    + rewrite in_classRemove. cbn [In]. split; [|discriminate].
      intros [_ H]. exfalso. apply H. auto.
    + intros c Hc. rewrite in_classRemove. cbn [In]. split.
      * intros [H _]. exact H.
      * intros H. split; [exact H|]. intros [E|[]]. apply Hc. symmetry. exact E.
    + split; reflexivity.
    + split; discriminate.
  - split; [|split; [|split]].
    + rewrite in_classAdd. split; auto.
    + intros c Hc. rewrite in_classAdd. split.
      * intros [E|H]; [contradiction|exact H].
      * auto.
    + split; discriminate.
    + split; reflexivity.
Qed.

(** X12.  [updateBusMode] throws exactly when the lookup yields undefined,
    a TypeError, and then leaves the document as it was.  On a property
    inherited from Object.prototype it completes, takes ac-mode off the body
    and labels the field VAC (RMS). *)
Theorem updateBusMode_without_profile (doc : Document) :
  (getProfile (busTypeValue (docPage doc)) = JUndefined ->
   updateBusMode doc = (Throw TypeError, doc))
  /\ (forall e, fst (updateBusMode doc) = Throw e ->
                getProfile (busTypeValue (docPage doc)) = JUndefined
                /\ snd (updateBusMode doc) = doc)
  /\ (getProfile (busTypeValue (docPage doc)) = JInherited ->
      fst (updateBusMode doc) = Ok tt
      /\ ~ In "ac-mode" (bodyClasses (snd (updateBusMode doc)))
      /\ steadyVoltageUnit (snd (updateBusMode doc)) = "VAC (RMS)").
Proof.
  unfold updateBusMode.
  destruct (getProfile (busTypeValue (docPage doc))) as [| |p] eqn:Hkey;
    cbn [prop truthy fst snd].
  - split; [reflexivity|]. split; [auto|discriminate].
  - split; [discriminate|]. split; [discriminate|]. intros _.
    split; [reflexivity|].
    assert (Hne : (busTypeValue (docPage doc) =? "28vdc") = false).
    { apply String.eqb_neq. intros E. rewrite E in Hkey. discriminate Hkey. }
    rewrite Hne. cbn [bodyClasses steadyVoltageUnit].
    split; [|reflexivity].
    rewrite in_classRemove. cbn [In]. intros [_ H]. apply H. auto.
  - split; [discriminate|]. split; discriminate.
Qed.

(** X13.  The AC-only view and the evaluator agree: after [updateBusMode]
    on a registered bus type the body carries ac-mode exactly when the report
    for that bus type, on whatever measurements, has a frequency check. *)
Theorem ac_mode_iff_frequency_check (doc : Document) (p : BusProfile)
    (m : Measurement) :
  getProfile (busTypeValue (docPage doc)) = JProfile p ->
  exists report,
    evaluate numberToString (getProfile (busTypeValue (docPage doc))) m
      = Ok report
    /\ (In "ac-mode" (bodyClasses (snd (updateBusMode doc))) <->
        exists c, In c (checks report) /\ label c = "Steady-State Frequency").
Proof.
  intros Hkey.
  assert (Hp : frequencyConsistent p).
  { intros Hac.
    destruct (getProfile_registered _ _ Hkey) as [[_ ->]|[_ ->]];
      [discriminate Hac|eexists; reflexivity]. }
  destruct (evaluate_profile numberToString p m Hp)
    as (cv & cf & cr & cu & co & E & (Lv & _) & Hf & (Lr & _) & (Lu & _)
        & (Lo & _)).
  rewrite Hkey. eexists. split; [exact E|]. cbn [checks].
  unfold updateBusMode. rewrite Hkey. cbn [prop truthy].
  destruct (hasFrequency p) eqn:Hac.
  - destruct (Hf eq_refl) as (Lf & _).
    destruct (busTypeValue (docPage doc) =? "28vdc");
      cbn [snd bodyClasses]; rewrite in_classAdd;
      (split; [intros _; exists cf; split; [cbn; auto|exact Lf]|auto]).
  - destruct (busTypeValue (docPage doc) =? "28vdc");
      cbn [snd bodyClasses]; rewrite in_classRemove; cbn [In];
      (split; [intros [_ H]; exfalso; apply H; auto|]);
      intros (c & Hin & Hc); cbn in Hin;
      destruct Hin as [<-|[<-|[<-|[<-|[]]]]];
      rewrite ?Lv, ?Lr, ?Lu, ?Lo in Hc; discriminate Hc.
Qed.

(** ** [runComplianceCheck] on the document *)

Lemma submitForm_cases (doc : Document) :
  let page := docPage doc in
  (exists e, submitForm trim Number numberToString doc = (Throw e, doc))
  \/ (exists report block,
        evaluate numberToString (getProfile (busTypeValue page))
          (readForm trim Number page) = Ok report
        /\ summaryClasses block
           = classRemove [ "summary-block--hidden" ]
                         (summaryClasses (summaryBlock page))
        /\ submitForm trim Number numberToString doc
           = (Ok tt,
              {| docPage :=
                   renderChecklist (checks report)
                     (setSummaryBlock block
                        (renderOverallStatus (overallPass report) page));
                 bodyClasses := bodyClasses doc;
                 steadyVoltageUnit := steadyVoltageUnit doc;
                 steadyVoltageHintText := steadyVoltageHintText doc;
                 checklistPlaceholder := false |})).
Proof.
  cbv zeta. unfold submitForm.
  destruct (runComplianceCheck_cases (docPage doc))
    as [(e & _ & ->)|(report & block & Hev & Hc & _ & ->)].
  - left. exists e. rewrite onPage_same. reflexivity.
  - right. exists report, block. split; [exact Hev|]. split; [exact Hc|].
    reflexivity.
Qed.

Lemma item_text_within (c : CheckResult) :
  itemPillText (checkItem c) = "Within limit" <-> pass c = true.
Proof.
  unfold checkItem. cbn [itemPillText].
  destruct (pass c); split; auto; discriminate.
Qed.

(** What a completed run leaves is a report on show. *)
Lemma showingReport_after_render (doc : Document) (report : ComplianceReport)
    (block : SummaryBlock) :
  overallPass report = every (checks report) ->
  summaryClasses block
  = classRemove [ "summary-block--hidden" ]
                (summaryClasses (summaryBlock (docPage doc))) ->
  showingReport
    {| docPage :=
         renderChecklist (checks report)
           (setSummaryBlock block
              (renderOverallStatus (overallPass report) (docPage doc)));
       bodyClasses := bodyClasses doc;
       steadyVoltageUnit := steadyVoltageUnit doc;
       steadyVoltageHintText := steadyVoltageHintText doc;
       checklistPlaceholder := false |}.
Proof.
  intros Hall Hblock.
  destruct (status_classes_after_render (overallPass report) (docPage doc))
    as (Hpass & Hfail & Hidle & _).
  unfold showingReport, hasClass.
  assert (Hst : overallStatus
                  (renderChecklist (checks report)
                     (setSummaryBlock block
                        (renderOverallStatus (overallPass report) (docPage doc))))
                = overallStatus (renderOverallStatus (overallPass report)
                                   (docPage doc))) by reflexivity.
  cbn [docPage checklistPlaceholder]. rewrite Hst.
  split; [exact Hidle|]. split; [|split; [|split; [reflexivity|]]].
  - destruct (overallPass report) eqn:Hv.
    + left. split; [apply Hpass; reflexivity|].
      split; [intros H; apply Hfail in H; discriminate H|].
      split; [reflexivity|].
      intros it Hin. cbn in Hin. apply in_map_iff in Hin.
      destruct Hin as (c & <- & Hc). apply item_text_within.
      symmetry in Hall. apply every_spec with (c := c) in Hall; assumption.
    + right. split; [apply Hfail; reflexivity|].
      split; [intros H; apply Hpass in H; discriminate H|].
      split; [reflexivity|].
      symmetry in Hall. destruct (every_false _ Hall) as (c & Hin & Hc).
      exists (checkItem c). split.
      * cbn. apply in_map. exact Hin.
      * unfold checkItem. cbn [itemPillText]. rewrite Hc. reflexivity.
  - cbn. rewrite in_classRemove. cbn [In]. intros [_ H]. apply H. auto.
  - cbn [summaryBlock renderChecklist setChecklist setSummaryBlock].
    rewrite Hblock, in_classRemove. cbn [In]. intros [_ H]. apply H. auto.
Qed.

(** X5.  A run that completes, on whatever bus type and from whatever
    state of the page, leaves a report on show: one verdict class and pill,
    the checklist filled with one item per check of the report in order,
    PASS exactly when every item reads Within limit and otherwise some item
    reading Out of limit, and neither placeholder nor hidden summary. *)
Theorem submitForm_shows_report (doc : Document) :
  fst (submitForm trim Number numberToString doc) = Ok tt ->
  exists report,
    evaluate numberToString (getProfile (busTypeValue (docPage doc)))
      (readForm trim Number (docPage doc)) = Ok report
    /\ checklistItems
         (checklist (docPage (snd (submitForm trim Number numberToString doc))))
       = map checkItem (checks report)
    /\ showingReport (snd (submitForm trim Number numberToString doc)).
Proof.
  destruct (submitForm_cases doc)
    as [(e & ->)|(report & block & Hev & Hc & ->)]; cbn [fst snd].
  - discriminate.
  - intros _. exists report. split; [exact Hev|]. split; [reflexivity|].
    apply showingReport_after_render; [|exact Hc].
    exact (evaluate_overall numberToString _ _ _ Hev).
Qed.

(** ** [resetForm] *)

Lemma awaitingInput_showIdle (doc : Document) : awaitingInput (showIdle doc).
Proof.
  unfold awaitingInput, showIdle, hasClass.
  cbn [docPage checklistPlaceholder overallStatus checklist summaryBlock
       setOverallStatus setChecklist setSummaryBlock statusClasses statusPill
       checklistClasses checklistItems summaryClasses].
  rewrite !in_classAdd, !in_classRemove. cbn [In].
  split; [auto|].
  split; [intros [H|[_ H]]; [discriminate H|apply H; auto]|].
  split; [intros [H|[_ H]]; [discriminate H|apply H; auto]|].
  repeat split; auto.
Qed.

Lemma updateBusMode_outputs (doc : Document) :
  let doc' := snd (updateBusMode doc) in
  docPage doc' = docPage doc
  /\ checklistPlaceholder doc' = checklistPlaceholder doc.
Proof.
  cbv zeta. unfold updateBusMode.
  destruct (prop (getProfile (busTypeValue (docPage doc))) hasFrequency);
    cbn [snd]; [|split; reflexivity].
  destruct (busTypeValue (docPage doc) =? "28vdc"); split; reflexivity.
Qed.

(** X14.  [resetForm] first resets the form and calls [updateBusMode].  When
    the bus type the form resets to has a profile object, the handler
    completes and the result area awaits input again, whatever it showed: the
    idle class and texts, an empty checklist with its placeholder, the
    summary hidden, its texts left as they were.  When it has none, the
    handler ends by a TypeError with the form reset and the result area as it
    was. *)
Theorem resetForm_result (doc : Document) :
  let form := formReset (busTypeValue (docPage doc), inputValue (docPage doc)) in
  let old := summaryBlock (docPage doc) in
  (getProfile (fst form) <> JUndefined ->
   let doc' := snd (resetForm formReset doc) in
   fst (resetForm formReset doc) = Ok tt
   /\ awaitingInput doc'
   /\ busTypeValue (docPage doc') = fst form
   /\ inputValue (docPage doc') = snd form
   /\ summaryBlock (docPage doc')
      = {| summaryClasses := classAdd "summary-block--hidden" (summaryClasses old);
           summaryBusType := summaryBusType old;
           summaryNominal := summaryNominal old;
           summarySteadyVoltage := summarySteadyVoltage old;
           summaryFrequency := summaryFrequency old;
           summaryRipple := summaryRipple old;
           summaryUv := summaryUv old;
           summaryOv := summaryOv old |})
  /\ (getProfile (fst form) = JUndefined ->
      resetForm formReset doc
      = (Throw TypeError,
         onPage (setForm (fst form) (snd form) (docPage doc)) doc)).
Proof.
  cbv zeta. unfold resetForm.
  destruct (formReset (busTypeValue (docPage doc), inputValue (docPage doc)))
    as [busKey values].
  cbn [fst snd]. unfold updateBusMode.
  cbn [docPage onPage busTypeValue setForm].
  destruct (getProfile busKey) as [| |p]; cbn [prop truthy fst snd].
  - split; [intros H; contradiction H; reflexivity|reflexivity].
  - split; [|discriminate]. intros _.
    split; [reflexivity|]. split; [apply awaitingInput_showIdle|].
    destruct (busKey =? "28vdc"); repeat split; reflexivity.
  - split; [|discriminate]. intros _.
    split; [reflexivity|]. split; [apply awaitingInput_showIdle|].
    destruct (busKey =? "28vdc"); repeat split; reflexivity.
Qed.

(** ** The result area over a session *)

Lemma coherent_same_outputs (doc doc' : Document) :
  overallStatus (docPage doc') = overallStatus (docPage doc) ->
  checklist (docPage doc') = checklist (docPage doc) ->
  summaryBlock (docPage doc') = summaryBlock (docPage doc) ->
  checklistPlaceholder doc' = checklistPlaceholder doc ->
  coherent doc -> coherent doc'.
Proof.
  intros E1 E2 E3 E4.
  unfold coherent, awaitingInput, showingReport.
  rewrite E1, E2, E3, E4. auto.
Qed.

Lemma coherent_fire (h : Handler) (doc : Document) :
  coherent doc ->
  coherent (snd (fire trim Number numberToString formReset h doc)).
Proof.
  intros Hdoc. destruct h; cbn [fire].
  - destruct (updateBusMode_outputs doc) as [Hp Hc].
    apply (coherent_same_outputs doc); try (rewrite Hp; reflexivity); auto.
  - destruct (submitForm_cases doc)
      as [(e & ->)|(report & block & Hev & Hc & ->)]; cbn [snd].
    + exact Hdoc.
    + right. apply showingReport_after_render; [|exact Hc].
      exact (evaluate_overall numberToString _ _ _ Hev).
  - unfold resetForm.
    destruct (formReset (busTypeValue (docPage doc), inputValue (docPage doc)))
      as [busKey values].
    pose proof (updateBusMode_outputs
                  (onPage (setForm busKey values (docPage doc)) doc)) as Hu.
    cbv zeta in Hu. destruct Hu as [Hp Hc].
    destruct (updateBusMode (onPage (setForm busKey values (docPage doc)) doc))
      as [[[]|e] doc1]; cbn [snd] in *.
    + left. apply awaitingInput_showIdle.
    + apply (coherent_same_outputs doc); try (rewrite Hp; reflexivity); auto.
  - exact Hdoc.
Qed.

(** X15.  Over a whole session, however handlers and edits of the form
    follow one another and whether or not a handler throws, the result area
    is never half rendered: it either awaits input (idle class, placeholder,
    empty checklist, hidden summary) or shows a report (one verdict class
    matching the pill and the items, no placeholder, summary shown). *)
Theorem result_area_coherent (start doc : Document) :
  coherent start ->
  reachable trim Number numberToString formReset start doc ->
  coherent doc.
Proof.
  intros Hstart Hreach.
  induction Hreach as [|h doc Hreach IH|busKey values doc Hreach IH].
  - exact Hstart.
  - apply coherent_fire. exact IH.
  - apply (coherent_same_outputs doc); try reflexivity. exact IH.
Qed.

End HandlerProperties.

(** ** Instances on the page *)

Lemma renderOverallStatus_one_state_class_witness :
  let page := idlePage "28vdc" fields28 in
  let after := statusClasses (overallStatus (renderOverallStatus true page)) in
  In "overall-status--pass" after
  /\ ~ In "overall-status--idle" after
  /\ "card" <> "overall-status--idle"
  /\ "card" <> "overall-status--pass"
  /\ "card" <> "overall-status--fail"
  /\ (In "card" after <-> In "card" (statusClasses (overallStatus page))).
Proof.
  cbv zeta.
  destruct (renderOverallStatus_one_state_class true (idlePage "28vdc" fields28))
    as (Hpass & _ & Hidle & Hother).
  split; [apply Hpass; reflexivity|]. split; [exact Hidle|].
  split; [discriminate|]. split; [discriminate|]. split; [discriminate|].
  apply Hother; discriminate.
Defined.

Lemma registered_profiles_well_formed_witness :
  getProfile "115vac400" = JProfile profile115vac400
  /\ In ("115vac400", profile115vac400) busProfiles
  /\ (hasFrequency profile115vac400 = true <->
      frequencyRange profile115vac400 <> None).
Proof.
  split; [reflexivity|].
  destruct (registered_profiles_well_formed "115vac400" profile115vac400 eq_refl)
    as (Hin & _ & _ & Hfreq & _).
  split; [exact Hin|exact Hfreq].
Defined.

Lemma overall_pass_characterised_witness :
  frequencyConsistent profile28vdc
  /\ exists report,
      evaluate wholeNumberToString (JProfile profile28vdc) (example28 None)
        = Ok report
      /\ overallPass report = true.
Proof.
  pose proof (registered_profiles_consistent _ in_28vdc) as Hp.
  split; [exact Hp|].
  destruct (overall_pass_characterised wholeNumberToString profile28vdc
              (example28 None) Hp) as (report & E & Hiff).
  exists report. split; [exact E|]. apply Hiff.
  split; [exists (278 # 10); cbn; repeat split; discriminate|].
  split; [intros H; discriminate H|].
  split; [exists 3; cbn; split; [reflexivity|discriminate]|].
  split; exists 10, 20; cbn; repeat split; discriminate.
Defined.

Lemma dc_ignores_frequency_witness :
  hasFrequency profile28vdc = false
  /\ evaluate wholeNumberToString (JProfile profile28vdc)
       (withFrequency (Some 400) (example28 None))
     = evaluate wholeNumberToString (JProfile profile28vdc) (example28 None).
Proof.
  split; [reflexivity|].
  exact (proj1 (dc_ignores_frequency wholeNumberToString profile28vdc
                  (example28 None) (Some 400) (idlePage "28vdc" fields28)
                  eq_refl)).
Defined.

Lemma inherited_object_evaluation_witness :
  readsLimit (example28 None) = true
  /\ evaluate wholeNumberToString JInherited (example28 None) = Throw TypeError
  /\ readsLimit noMeasurement = false
  /\ exists report,
      evaluate wholeNumberToString JInherited noMeasurement = Ok report
      /\ overallPass report = false.
Proof.
  split; [reflexivity|]. split.
  - exact (proj1 (inherited_object_evaluation wholeNumberToString
                    (example28 None)) eq_refl).
  - split; [reflexivity|].
    destruct (proj2 (inherited_object_evaluation wholeNumberToString
                       noMeasurement) eq_refl) as (report & E & _ & _ & Hv).
    exists report. split; [exact E|exact Hv].
Defined.

Lemma runComplianceCheck_throw_leaves_page_witness :
  fst (runComplianceCheck trimAscii decimalLiteral wholeNumberToString
         (idlePage "270vdc" fields28)) = Throw TypeError
  /\ snd (runComplianceCheck trimAscii decimalLiteral wholeNumberToString
            (idlePage "270vdc" fields28)) = idlePage "270vdc" fields28.
Proof.
  assert (H : fst (runComplianceCheck trimAscii decimalLiteral
                     wholeNumberToString (idlePage "270vdc" fields28))
              = Throw TypeError) by (vm_compute; reflexivity).
  split; [exact H|].
  exact (runComplianceCheck_throw_leaves_page trimAscii decimalLiteral
           wholeNumberToString (idlePage "270vdc" fields28) TypeError H).
Defined.

Lemma runComplianceCheck_renders_report_witness :
  getProfile (busTypeValue (idlePage "28vdc" fields28)) = JProfile profile28vdc
  /\ frequencyConsistent profile28vdc
  /\ exists report page',
      runComplianceCheck trimAscii decimalLiteral wholeNumberToString
        (idlePage "28vdc" fields28) = (Ok tt, page')
      /\ checklistItems (checklist page') = map checkItem (checks report).
Proof.
  pose proof (registered_profiles_consistent _ in_28vdc) as Hp.
  split; [reflexivity|]. split; [exact Hp|].
  destruct (runComplianceCheck_renders_report trimAscii decimalLiteral
              wholeNumberToString (idlePage "28vdc" fields28) profile28vdc
              eq_refl Hp) as (report & page' & _ & Hrun & Hitems & _).
  exists report, page'. split; [exact Hrun|exact Hitems].
Defined.

Lemma submitForm_shows_report_witness :
  fst (submitForm trimAscii decimalLiteral wholeNumberToString
         (idleDocument "28vdc" fields28)) = Ok tt
  /\ showingReport
       (snd (submitForm trimAscii decimalLiteral wholeNumberToString
               (idleDocument "28vdc" fields28))).
Proof.
  assert (H : fst (submitForm trimAscii decimalLiteral wholeNumberToString
                     (idleDocument "28vdc" fields28)) = Ok tt)
    by (vm_compute; reflexivity).
  split; [exact H|].
  destruct (submitForm_shows_report trimAscii decimalLiteral
              wholeNumberToString (idleDocument "28vdc" fields28) H)
    as (report & _ & _ & Hshow).
  exact Hshow.
Defined.

Lemma updateBusMode_registered_witness :
  getProfile (busTypeValue (docPage (idleDocument "115vac400" blankFields)))
    = JProfile profile115vac400
  /\ exists doc',
      updateBusMode (idleDocument "115vac400" blankFields) = (Ok tt, doc')
      /\ In "ac-mode" (bodyClasses doc')
      /\ steadyVoltageUnit doc' = "VAC (RMS)".
Proof.
  split; [reflexivity|].
  destruct (updateBusMode_registered (idleDocument "115vac400" blankFields)
              profile115vac400 eq_refl)
    as (doc' & E & _ & _ & Hac & _ & _ & Hunit).
  exists doc'. split; [exact E|].
  split; [apply Hac; reflexivity|apply Hunit; reflexivity].
Defined.

Lemma updateBusMode_without_profile_witness :
  getProfile (busTypeValue (docPage (idleDocument "270vdc" blankFields)))
    = JUndefined
  /\ updateBusMode (idleDocument "270vdc" blankFields)
     = (Throw TypeError, idleDocument "270vdc" blankFields)
  /\ getProfile (busTypeValue (docPage (idleDocument "toString" blankFields)))
     = JInherited
  /\ steadyVoltageUnit (snd (updateBusMode (idleDocument "toString" blankFields)))
     = "VAC (RMS)".
Proof.
  split; [reflexivity|]. split.
  - exact (proj1 (updateBusMode_without_profile
                    (idleDocument "270vdc" blankFields)) eq_refl).
  - split; [reflexivity|].
    destruct (proj2 (proj2 (updateBusMode_without_profile
                              (idleDocument "toString" blankFields))) eq_refl)
      as (_ & _ & Hunit).
    exact Hunit.
Defined.

Lemma ac_mode_iff_frequency_check_witness :
  getProfile (busTypeValue (docPage (idleDocument "28vdc" fields28)))
    = JProfile profile28vdc
  /\ exists report,
      evaluate wholeNumberToString
        (getProfile (busTypeValue (docPage (idleDocument "28vdc" fields28))))
        (example28 (Some 400)) = Ok report
      /\ (In "ac-mode"
            (bodyClasses (snd (updateBusMode (idleDocument "28vdc" fields28))))
          <-> exists c, In c (checks report)
                        /\ label c = "Steady-State Frequency").
Proof.
  split; [reflexivity|].
  exact (ac_mode_iff_frequency_check wholeNumberToString
           (idleDocument "28vdc" fields28) profile28vdc (example28 (Some 400))
           eq_refl).
Defined.

Lemma resetForm_result_witness :
  let shown := snd (submitForm trimAscii decimalLiteral wholeNumberToString
                      (idleDocument "28vdc" fields28)) in
  getProfile "28vdc" <> JUndefined
  /\ fst (resetForm resetToBlank28 shown) = Ok tt
  /\ awaitingInput (snd (resetForm resetToBlank28 shown))
  /\ summarySteadyVoltage
       (summaryBlock (docPage (snd (resetForm resetToBlank28 shown))))
     = "27.80 VDC".
Proof.
  cbv zeta.
  assert (Hkey : getProfile "28vdc" <> JUndefined) by discriminate.
  split; [exact Hkey|].
  destruct (proj1 (resetForm_result resetToBlank28
                     (snd (submitForm trimAscii decimalLiteral
                             wholeNumberToString
                             (idleDocument "28vdc" fields28)))) Hkey)
    as (Hok & Hidle & _ & _ & Hsummary).
  split; [exact Hok|]. split; [exact Hidle|].
  rewrite Hsummary. vm_compute. reflexivity.
Defined.

Lemma result_area_coherent_witness :
  let start := idleDocument "28vdc" fields28 in
  let shown := snd (fire trimAscii decimalLiteral wholeNumberToString
                      resetToBlank28 FormSubmit start) in
  let doc := snd (fire trimAscii decimalLiteral wholeNumberToString
                    resetToBlank28 ResetClick shown) in
  coherent start
  /\ reachable trimAscii decimalLiteral wholeNumberToString resetToBlank28
       start doc
  /\ coherent doc.
Proof.
  cbv zeta.
  assert (Hstart : coherent (idleDocument "28vdc" fields28)).
  { left. unfold awaitingInput, hasClass. cbn.
    repeat split; auto; intros [H|[]]; discriminate H. }
  assert (Hreach : reachable trimAscii decimalLiteral wholeNumberToString
                     resetToBlank28 (idleDocument "28vdc" fields28)
                     (snd (fire trimAscii decimalLiteral wholeNumberToString
                             resetToBlank28 ResetClick
                             (snd (fire trimAscii decimalLiteral
                                     wholeNumberToString resetToBlank28
                                     FormSubmit
                                     (idleDocument "28vdc" fields28)))))).
  { apply reach_fire, reach_fire, reach_start. }
  split; [exact Hstart|]. split; [exact Hreach|].
  exact (result_area_coherent trimAscii decimalLiteral wholeNumberToString
           resetToBlank28 _ _ Hstart Hreach).
Defined.
